(** * Data ingestion step: a shallow embedding of [src/data_ingestion.py]

    The script downloads a CSV table, drops three placeholder columns,
    renames two columns, splits the rows into a train and a test part with
    scikit-learn's [train_test_split] and writes both parts as CSV files.

    The Python functions [load_params], [load_data], [preprocess_data],
    [save_data] and [main] are embedded as computations in a state-and-error
    monad over an explicit [World] (file system, console, network).  The
    library calls they make (pandas, scikit-learn, PyYAML, logging, pathlib)
    are embedded from the documented behaviour of those libraries; what is
    outside the reach of a model (the bytes a YAML parser accepts, the
    Mersenne-Twister stream behind [RandomState(2).permutation], the text
    of [str(e)], the wall clock of the log formatter, the quoting rules of
    the CSV writer) is a section variable.

    The stages are written for a process in which the module level of the
    script has run: the logger [data_ingestion] has its console handler and
    its file handler on [logs/data_ingestion.log], both at level DEBUG.  The
    module level itself is [module_level], over a [Process] that holds the
    logger beside the world, and [script] is the module level followed by
    [main].  Exceptions are the subclasses of [Exception]; what
    [except Exception] does not catch ([KeyboardInterrupt], [SystemExit]) is
    not modelled.

    The pandas methods [drop] and [rename] are called [drop_columns] and
    [rename_columns] here, after their [columns=] argument. *)

From Stdlib Require Import ZArith List String Ascii Lia Permutation.
From Stdlib Require Import Floats.PrimFloat Floats.SpecFloat Floats.FloatOps Floats.FloatAxioms.
From stdpp Require Import base gmap strings list.

Set Warnings "-register-all".

Local Open Scope string_scope.
Local Open Scope Z_scope.

(** ** Python values and exceptions *)

(** What [yaml.safe_load] can build, and what a cell of a data frame
    holds.  A [dict] keeps its entries in insertion order; its keys are
    pairwise different, so a lookup may stop at the first hit. *)
Inductive pyobj : Type :=
| PyNone
| PyBool (b : bool)
| PyInt (z : Z)
| PyFloat (f : float)
| PyStr (s : string)
| PyList (l : list pyobj)
| PyDict (d : list (pyobj * pyobj))
| PyOpaque (type_name : string).   (* bytes, date, datetime, set *)

(** The exceptions the script can meet, all subclasses of [Exception]. *)
Inductive exn : Type :=
| FileNotFoundError (path : string)
| OSError (detail : string)
| YAMLError (detail : string)
| ParserError (detail : string)
| KeyError (labels : list string)
| TypeError (detail : string)
| ValueError (detail : string)
| IndexError (detail : string)
| OtherError (class_name detail : string).

Abbreviation result A := (exn + A)%type.

Definition type_name (o : pyobj) : string :=
  match o with
  | PyNone => "NoneType"
  | PyBool _ => "bool"
  | PyInt _ => "int"
  | PyFloat _ => "float"
  | PyStr _ => "str"
  | PyList _ => "list"
  | PyDict _ => "dict"
  | PyOpaque t => t
  end.

Definition key_is (k : string) (o : pyobj) : bool :=
  match o with
  | PyStr s => String.eqb s k
  | _ => false
  end.

Fixpoint dict_get (d : list (pyobj * pyobj)) (k : string) : option pyobj :=
  match d with
  | [] => None
  | (k', v) :: d' => if key_is k k' then Some v else dict_get d' k
  end.

(** [o[k]] for a string key [k]: only a [dict] can be indexed by a string. *)
Definition getitem (o : pyobj) (k : string) : result pyobj :=
  match o with
  | PyDict d =>
      match dict_get d k with
      | Some v => inr v
      | None => inl (KeyError [k])
      end
  | _ => inl (TypeError (type_name o))
  end.

(** ** Floating point: [float(n)], [math.ceil] *)

(** [float(n)] for a Python integer: the nearest binary64 value. *)
Definition float_of_Z (n : Z) : float :=
  SF2Prim (binary_normalize prec emax n 0 false).

(** [math.ceil x]: the least integer not below [x]; an infinity raises
    [OverflowError] and a NaN raises [ValueError]. *)
Definition math_ceil (x : float) : result Z :=
  match Prim2SF x with
  | S754_zero _ => inr 0
  | S754_finite false m e =>
      inr (if 0 <=? e then Z.pos m * 2 ^ e else - ((- Z.pos m) / 2 ^ (- e)))
  | S754_finite true m e =>
      inr (if 0 <=? e then - (Z.pos m * 2 ^ e) else - (Z.pos m / 2 ^ (- e)))
  | S754_infinity _ => inl (OtherError "OverflowError" "cannot convert float infinity to integer")
  | S754_nan => inl (ValueError "cannot convert float NaN to integer")
  end.

(** ** Data frames (pandas) *)

(** A frame has column labels and rows; a row carries its index label
    (a [RangeIndex] position for a frame read by [read_csv]) and one cell
    per column. *)
Record DataFrame : Type := mkDataFrame {
  columns : list string;
  records : list (nat * list pyobj)
}.

Definition n_samples (df : DataFrame) : nat := length (records df).

Definition has_label (cols : list string) (l : string) : bool :=
  existsb (String.eqb l) cols.

(** Keep the entries of [xs] whose mask bit is set. *)
Fixpoint select {A} (mask : list bool) (xs : list A) : list A :=
  match mask, xs with
  | b :: mask', x :: xs' => if b then x :: select mask' xs' else select mask' xs'
  | _, _ => []
  end.

(** [df.drop(columns=labels)] with the default [errors="raise"]: every
    label must be a column, else [KeyError] lists the labels that are not;
    every column carrying one of the labels goes. *)
Definition drop_columns (labels : list string) (df : DataFrame) : result DataFrame :=
  match List.filter (fun l => negb (has_label (columns df) l)) labels with
  | [] =>
      let mask := map (fun c => negb (has_label labels c)) (columns df) in
      inr {| columns := select mask (columns df);
             records := map (fun r => (fst r, select mask (snd r))) (records df) |}
  | missing => inl (KeyError missing)
  end.

Fixpoint mapper_get (mapper : list (string * string)) (c : string) : string :=
  match mapper with
  | [] => c
  | (old, new) :: mapper' => if String.eqb old c then new else mapper_get mapper' c
  end.

(** [df.rename(columns=mapper)] with the default [errors="ignore"]: a key
    of the mapper that is no column is skipped without complaint. *)
Definition rename_columns (mapper : list (string * string)) (df : DataFrame) : DataFrame :=
  {| columns := map (mapper_get mapper) (columns df);
     records := records df |}.

(** [df.iloc[indices]]: rows by position, in the order of [indices]; a
    position outside the frame raises [IndexError]. *)
Fixpoint take_rows (rs : list (nat * list pyobj)) (indices : list nat)
  : result (list (nat * list pyobj)) :=
  match indices with
  | [] => inr []
  | i :: indices' =>
      match rs !! i with
      | None => inl (IndexError "positional indexers are out-of-bounds")
      | Some r =>
          match take_rows rs indices' with
          | inl e => inl e
          | inr rs' => inr (r :: rs')
          end
      end
  end.

Definition iloc (df : DataFrame) (indices : list nat) : result DataFrame :=
  match take_rows (records df) indices with
  | inl e => inl e
  | inr rs => inr {| columns := columns df; records := rs |}
  end.

(** ** The split (scikit-learn) *)

(** [_validate_shuffle_split(n_samples, test_size, train_size)], as
    [train_test_split] and [ShuffleSplit] call it: [train_size] is [None] or
    an integer; [test_size] is whatever the caller passed.  Returns
    [(n_train, n_test)]. *)
Definition validate_shuffle_split (n : Z) (test_size : pyobj) (train_size : option Z)
    (default_test_size : float) : result (Z * Z) :=
  let test_size :=
    match test_size, train_size with
    | PyNone, None => PyFloat default_test_size
    | _, _ => test_size
    end in
  let bad_test :=
    match test_size with
    | PyInt k => (n <=? k) || (k <=? 0)
    | PyFloat f => (PrimFloat.leb f 0 || PrimFloat.leb 1 f)%bool
    | _ => false
    end in
  let bad_train :=
    match train_size with
    | Some k => (n <=? k) || (k <=? 0)
    | None => false
    end in
  if bad_test then inl (ValueError "test_size out of range")
  else if bad_train then inl (ValueError "train_size out of range")
  else
    let sized (n_test : option Z) : result (Z * Z) :=
      match n_test, train_size with
      | Some n_test, None => inr (n - n_test, n_test)
      | Some n_test, Some n_train => inr (n_train, n_test)
      | None, Some n_train => inr (n_train, n - n_train)
      | None, None => inl (ValueError "Invalid value for test_size")
      end in
    let sizes :=
      match test_size with
      | PyFloat f =>
          match math_ceil (PrimFloat.mul f (float_of_Z n)) with
          | inl e => inl e
          | inr n_test => sized (Some n_test)
          end
      | PyInt k => sized (Some k)
      | PyNone => sized None
      | _ => inl (ValueError "Invalid value for test_size")
      end in
    match sizes with
    | inl e => inl e
    | inr (n_train, n_test) =>
        if n <? n_train + n_test
        then inl (ValueError "The sum of train_size and test_size is too large")
        else if n_train =? 0
        then inl (ValueError "the resulting train set will be empty")
        else inr (n_train, n_test)
    end.

(** 0.25, the default test fraction of [train_test_split]; 0.1, that of
    [ShuffleSplit]. *)
Definition quarter : float := Eval vm_compute in PrimFloat.div 1 4.
Definition tenth : float := Eval vm_compute in PrimFloat.div 1 10.

(** ** The world the script runs in *)

(** A [pathlib.Path], as its components. *)
Abbreviation Path := (list string).

Definition path_str (p : Path) : string := String.concat "/" p.

(** [p / c] of pathlib. *)
Definition joinpath (p : Path) (c : string) : Path := app p [c].
Infix "//" := joinpath (at level 40, left associativity).

(** The directory itself and every ancestor of it. *)
Fixpoint with_parents (p : Path) : list Path :=
  match p with
  | [] => []
  | c :: p' => [c] :: map (cons c) (with_parents p')
  end.

Inductive syscall : Type :=
| SysOpen (p : Path)
| SysMkdir (p : Path)
| SysWrite (p : Path).

Record World : Type := mkWorld {
  files : gmap Path string;            (* regular files and their content *)
  dirs : gset Path;                    (* directories *)
  faults : syscall -> option string;   (* calls the system refuses, with the reason *)
  remote : string -> result DataFrame; (* what [pd.read_csv(url)] yields *)
  requests : list string;              (* the URLs fetched so far *)
  stdout : list string;                (* lines printed *)
  stderr : list string;                (* lines of the console log handler *)
  clock : nat                          (* the time of the next log record *)
}.

Definition set_files (f : gmap Path string) (w : World) : World :=
  {| files := f; dirs := dirs w; faults := faults w; remote := remote w;
     requests := requests w; stdout := stdout w; stderr := stderr w; clock := clock w |}.

Definition set_dirs (d : gset Path) (w : World) : World :=
  {| files := files w; dirs := d; faults := faults w; remote := remote w;
     requests := requests w; stdout := stdout w; stderr := stderr w; clock := clock w |}.

(** ** A state-and-error monad *)

Definition M (A : Type) : Type := World -> World * result A.

Definition ret {A} (a : A) : M A := fun w => (w, inr a).

Definition raise {A} (e : exn) : M A := fun w => (w, inl e).

Definition bind {A B} (m : M A) (k : A -> M B) : M B :=
  fun w =>
    match m w with
    | (w', inr a) => k a w'
    | (w', inl e) => (w', inl e)
    end.

(** [try: body / except Exception as e: handler e]; what the body did to
    the world before it raised stays done. *)
Definition try_except {A} (body : M A) (handler : exn -> M A) : M A :=
  fun w =>
    match body w with
    | (w', inr a) => (w', inr a)
    | (w', inl e) => handler e w'
    end.

Definition lift {A} (r : result A) : M A := fun w => (w, r).

Notation "x <-- m ;; k" := (bind m (fun x => k))
  (at level 100, m at next level, right associativity).
Notation "m ;;; k" := (bind m (fun _ => k))
  (at level 100, right associativity).

(** ** Consoles, files, directories *)

Definition printed (line : string) (w : World) : World :=
  {| files := files w; dirs := dirs w; faults := faults w; remote := remote w;
     requests := requests w; stdout := (stdout w ++ [line])%list; stderr := stderr w;
     clock := clock w |}.

Definition print (line : string) : M unit :=
  fun w => (printed line w, inr tt).

Definition is_file (w : World) (p : Path) : bool :=
  match files w !! p with
  | Some _ => true
  | None => false
  end.

Definition is_dir (w : World) (p : Path) : bool := bool_decide (p ∈ dirs w).

(** The directory a path lies in; the working directory is [[]]. *)
Definition parent (p : Path) : Path := removelast p.

(** [path.open("r")] followed by reading the whole file. *)
Definition read_text (p : Path) : M string :=
  fun w =>
    match faults w (SysOpen p) with
    | Some why => (w, inl (OSError why))
    | None =>
        match files w !! p with
        | Some content => (w, inr content)
        | None =>
            if is_dir w p then (w, inl (OSError "Is a directory"))
            else (w, inl (FileNotFoundError (path_str p)))
        end
    end.

(** [path.mkdir(parents=True, exist_ok=True)]: the directory and its
    missing ancestors are made, existing directories are accepted, a regular
    file at the path or at one of its ancestors is not. *)
Definition mkdir (p : Path) : M unit :=
  fun w =>
    match faults w (SysMkdir p) with
    | Some why => (w, inl (OSError why))
    | None =>
        if existsb (is_file w) (with_parents p)
        then (w, inl (OSError "File exists"))
        else (set_dirs (dirs w ∪ list_to_set (with_parents p)) w, inr tt)
    end.

(** [path.write_text(data)]: the file is created or truncated, then holds
    [data] and nothing else; the path must not be a directory and must lie
    in a directory. *)
Definition write_text (p : Path) (data : string) : M unit :=
  fun w =>
    match faults w (SysWrite p) with
    | Some why => (w, inl (OSError why))
    | None =>
        if is_dir w p then (w, inl (OSError "Is a directory"))
        else if is_file w (parent p) then (w, inl (OSError "Not a directory"))
        else
          match parent p with
          | [] => (set_files (<[p := data]> (files w)) w, inr tt)
          | _ =>
              if is_dir w (parent p)
              then (set_files (<[p := data]> (files w)) w, inr tt)
              else (w, inl (FileNotFoundError (path_str p)))
          end
    end.

(** [pd.read_csv(url)]: one request to the remote end. *)
Definition requested (url : string) (w : World) : World :=
  {| files := files w; dirs := dirs w; faults := faults w; remote := remote w;
     requests := (requests w ++ [url])%list; stdout := stdout w; stderr := stderr w;
     clock := clock w |}.

Definition read_csv (url : string) : M DataFrame :=
  fun w => (requested url w, remote w url).

(** ** Logging *)

Inductive level : Type := DEBUG | INFO | WARNING | ERROR | CRITICAL.

Definition levelname (lv : level) : string :=
  match lv with
  | DEBUG => "DEBUG"
  | INFO => "INFO"
  | WARNING => "WARNING"
  | ERROR => "ERROR"
  | CRITICAL => "CRITICAL"
  end.

Definition LOG_DIR : Path := ["logs"].
Definition LOG_FILE : Path := LOG_DIR // "data_ingestion.log".

Definition newline : string := String "010"%char EmptyString.

(** ** Vocabulary of the specification *)

(** The three placeholder columns of the raw table. *)
Definition placeholders : list string := ["Unnamed: 2"; "Unnamed: 3"; "Unnamed: 4"].

Definition is_placeholder (c : string) : bool :=
  String.eqb c "Unnamed: 2" || String.eqb c "Unnamed: 3" || String.eqb c "Unnamed: 4".

(** The name a retained column has after normalization. *)
Definition new_label (c : string) : string :=
  if String.eqb c "v1" then "target"
  else if String.eqb c "v2" then "text"
  else c.

(** The cell in row position [i] and column position [j]. *)
Definition cell (df : DataFrame) (i j : nat) : option pyobj :=
  match records df !! i with
  | Some r => snd r !! j
  | None => None
  end.

(** How many of the first [j] columns survive the removal. *)
Definition kept_before (cols : list string) (j : nat) : nat :=
  length (List.filter (fun c => negb (is_placeholder c)) (take j cols)).

(** The parsed configuration has a [test_size] entry in a
    [data_ingestion] mapping. *)
Definition has_test_size (params : pyobj) : bool :=
  match params with
  | PyDict d =>
      match dict_get d "data_ingestion" with
      | Some (PyDict d') =>
          match dict_get d' "test_size" with
          | Some _ => true
          | None => false
          end
      | _ => false
      end
  | _ => false
  end.

(** The configuration file and the two output files of [main]. *)
Definition params_yaml : Path := ["params.yaml"].
Definition train_csv : Path := ["data"; "raw"; "train.csv"].
Definition test_csv : Path := ["data"; "raw"; "test.csv"].

(** The exit status of the process when [main()] is the last statement
    of the script: an exception that escapes ends it with status 1. *)
Definition exit_status (r : result unit) : Z :=
  match r with
  | inr _ => 0
  | inl _ => 1
  end.

(** The address [main] fetches the table from. *)
Definition data_url : string :=
  "https://raw.githubusercontent.com/vikashishere/Datasets/main/spam.csv".

(** A fraction strictly between 0 and 1. *)
Definition is_fraction (f : float) : bool :=
  PrimFloat.ltb 0 f && PrimFloat.ltb f 1.

(** The double that the literal [0.2] denotes. *)
Definition one_fifth : float := 0x1.999999999999ap-3%float.

(** The frame [preprocess_data] returns when the three placeholder
    columns are there. *)
Definition normalized (df : DataFrame) : DataFrame :=
  {| columns := map new_label (List.filter (fun c => negb (is_placeholder c)) (columns df));
     records := map (fun r => (fst r,
                               select (map (fun c => negb (is_placeholder c)) (columns df)) (snd r)))
                    (records df) |}.

(** The calls [save_data] makes go through when the system refuses none
    of them and no file or directory is in the way. *)
Definition writable (root : Path) (w : World) : Prop :=
  faults w (SysMkdir (root // "raw")) = None /\
  faults w (SysWrite (root // "raw" // "train.csv")) = None /\
  faults w (SysWrite (root // "raw" // "test.csv")) = None /\
  existsb (is_file w) (with_parents (root // "raw")) = false /\
  is_dir w (root // "raw" // "train.csv") = false /\
  is_dir w (root // "raw" // "test.csv") = false.

(** What the run read, what it computed from that, and what it wrote. *)
Record trace : Type := mkTrace {
  t_content : string;
  t_params : pyobj;
  t_section : pyobj;
  t_test_size : pyobj;
  t_raw : DataFrame;
  t_train : DataFrame;
  t_test : DataFrame
}.

(** ** What a computation leaves alone *)

(** [preserves R m]: whatever [m] returns or raises, the world it leaves
    is [R]-related to the world it started in. *)
Definition preserves {A} (R : relation World) (m : M A) : Prop :=
  forall w, R w (fst (m w)).

(** The parts of the world the script can only read. *)
Definition same_env : relation World :=
  fun w w' => faults w' = faults w /\ remote w' = remote w.

Definition same_stdout : relation World :=
  fun w w' => stdout w' = stdout w.

Definition same_requests : relation World :=
  fun w w' => requests w' = requests w.

Definition same_dirs : relation World :=
  fun w w' => dirs w' = dirs w.

(** Every file outside [touched] is as it was: present or absent, and
    with the same content. *)
Definition same_files_but (touched : list Path) : relation World :=
  fun w w' => forall p, ~ In p touched -> files w' !! p = files w !! p.

(** The console log only grows. *)
Definition stderr_grows : relation World :=
  fun w w' => exists lines, stderr w' = (stderr w ++ lines)%list.

Section Script.

(** [numpy.random.RandomState(seed).permutation(n)]: a shuffle of
    [0, ..., n-1] that the seed determines. *)
Variable RandomState_permutation : nat -> nat -> list nat.

(** [yaml.safe_load] on the text of a file. *)
Variable yaml_safe_load : string -> result pyobj.

(** [str(e)]. *)
Variable py_str : exn -> string.

(** [%(asctime)s] of a record created at the given time. *)
Variable asctime : nat -> string.

(** One row as [csv.writer] writes it for [to_csv]: the cells formatted,
    quoted where the dialect asks for it, joined by commas and closed by
    the line terminator. *)
Variable writerow : list pyobj -> string.

(** [train_test_split(df, test_size=test_size, random_state=seed)]: the
    sizes are validated, [ShuffleSplit] validates them again as integers,
    draws one permutation, gives its first [n_test] positions to the test
    part and the next [n_train] to the train part; the rows are taken by
    position. *)
Definition train_test_split (df : DataFrame) (test_size : pyobj) (random_state : nat)
    : result (DataFrame * DataFrame) :=
  let n := Z.of_nat (n_samples df) in
  match validate_shuffle_split n test_size None quarter with
  | inl e => inl e
  | inr (n_train, n_test) =>
      match validate_shuffle_split n (PyInt n_test) (Some n_train) tenth with
      | inl e => inl e
      | inr (n_train, n_test) =>
          let permutation := RandomState_permutation random_state (n_samples df) in
          let ind_test := take (Z.to_nat n_test) permutation in
          let ind_train := take (Z.to_nat n_train) (drop (Z.to_nat n_test) permutation) in
          match iloc df ind_train with
          | inl e => inl e
          | inr train =>
              match iloc df ind_test with
              | inl e => inl e
              | inr test => inr (train, test)
              end
          end
      end
  end.

(** [df.to_csv(index=False)]: the header row, then one row per record,
    without the index label. *)
Definition to_csv (df : DataFrame) : string :=
  String.concat "" (writerow (map PyStr (columns df))
                    :: map (fun r => writerow (snd r)) (records df)).

(** The formatter ["%(asctime)s - %(name)s - %(levelname)s - %(message)s"]
    of the logger ["data_ingestion"]. *)
Definition fmt (t : nat) (lv : level) (message : string) : string :=
  asctime t +:+ " - " +:+ "data_ingestion" +:+ " - " +:+ levelname lv +:+ " - " +:+ message.

(** A record of the logger: both handlers take every level, the console
    handler writes the line to [stderr], the file handler appends it to
    [logs/data_ingestion.log]. *)
Definition logged (lv : level) (message : string) (w : World) : World :=
  let line := fmt (clock w) lv message in
  {| files := <[LOG_FILE := default "" (files w !! LOG_FILE) +:+ line +:+ newline]> (files w);
     dirs := dirs w; faults := faults w; remote := remote w;
     requests := requests w; stdout := stdout w; stderr := (stderr w ++ [line])%list;
     clock := S (clock w) |}.

Definition emit (lv : level) (message : string) : M unit :=
  fun w => (logged lv message w, inr tt).

Definition logger_debug : string -> M unit := emit DEBUG.
Definition logger_error : string -> M unit := emit ERROR.

(** ** The script *)

Definition load_params (params_path : Path) : M pyobj :=
  try_except
    (content <-- read_text params_path ;;
     params <-- lift (yaml_safe_load content) ;;
     logger_debug ("Parameters retrieved from " +:+ path_str params_path) ;;;
     ret params)
    (fun e =>
       match e with
       | FileNotFoundError _ =>
           logger_error ("File not found: " +:+ path_str params_path) ;;; raise e
       | YAMLError _ =>
           logger_error ("YAML error: " +:+ py_str e) ;;; raise e
       | _ => raise e
       end).

Definition load_data (data_url : string) : M DataFrame :=
  try_except
    (df <-- read_csv data_url ;;
     logger_debug ("Data loaded from " +:+ data_url) ;;;
     ret df)
    (fun e =>
       match e with
       | ParserError _ =>
           logger_error ("Failed to parse the CSV file: " +:+ py_str e) ;;; raise e
       | _ =>
           logger_error ("Unexpected error occurred while loading the data: " +:+ py_str e) ;;;
           raise e
       end).

Definition preprocess_data (df : DataFrame) : M DataFrame :=
  try_except
    (df <-- lift (drop_columns ["Unnamed: 2"; "Unnamed: 3"; "Unnamed: 4"] df) ;;
     let df := rename_columns [("v1", "target"); ("v2", "text")] df in
     logger_debug "Data preprocessing completed" ;;;
     ret df)
    (fun e =>
       match e with
       | KeyError _ =>
           logger_error ("Missing column in the dataframe: " +:+ py_str e) ;;; raise e
       | _ => raise e
       end).

Definition save_data (train_df test_df : DataFrame) (data_root : Path) : M unit :=
  try_except
    (let raw_dir := data_root // "raw" in
     mkdir raw_dir ;;;
     write_text (raw_dir // "train.csv") (to_csv train_df) ;;;
     write_text (raw_dir // "test.csv") (to_csv test_df) ;;;
     logger_debug ("Train and test data saved to " +:+ path_str raw_dir))
    (fun e =>
       logger_error ("Unexpected error occurred while saving the data: " +:+ py_str e) ;;;
       raise e).

(** The body of the [try] of [main]. *)
Definition ingest : M unit :=
  params <-- load_params ["params.yaml"] ;;
  section <-- lift (getitem params "data_ingestion") ;;
  test_size <-- lift (getitem section "test_size") ;;
  df <-- load_data data_url ;;
  final_df <-- preprocess_data df ;;
  split <-- lift (train_test_split final_df test_size 2) ;;
  save_data (fst split) (snd split) ["data"].

Definition main : M unit :=
  try_except ingest
    (fun e =>
       logger_error ("Failed to complete the data ingestion process: " +:+ py_str e) ;;;
       print ("Error: " +:+ py_str e)).

(** The world [load_params] leaves when reading or parsing fails with [e]. *)
Definition load_params_failed (params_path : Path) (e : exn) (w : World) : World :=
  match e with
  | FileNotFoundError _ => logged ERROR ("File not found: " +:+ path_str params_path) w
  | YAMLError _ => logged ERROR ("YAML error: " +:+ py_str e) w
  | _ => w
  end.

(** The message [load_data] logs when the fetch fails with [e]. *)
Definition load_data_message (e : exn) : string :=
  match e with
  | ParserError _ => "Failed to parse the CSV file: " +:+ py_str e
  | _ => "Unexpected error occurred while loading the data: " +:+ py_str e
  end.

(** The message [save_data] logs when a call fails with [e]. *)
Definition save_data_message (e : exn) : string :=
  "Unexpected error occurred while saving the data: " +:+ py_str e.

(** The world [main] leaves when its [try] body raised [e] in [w1]. *)
Definition reported (e : exn) (w1 : World) : World :=
  printed ("Error: " +:+ py_str e)
    (logged ERROR ("Failed to complete the data ingestion process: " +:+ py_str e) w1).

Definition explains (t : trace) (w w' : World) : Prop :=
  files w !! params_yaml = Some (t_content t) /\
  yaml_safe_load (t_content t) = inr (t_params t) /\
  getitem (t_params t) "data_ingestion" = inr (t_section t) /\
  getitem (t_section t) "test_size" = inr (t_test_size t) /\
  remote w data_url = inr (t_raw t) /\
  (forall c, In c placeholders -> In c (columns (t_raw t))) /\
  train_test_split (normalized (t_raw t)) (t_test_size t) 2 = inr (t_train t, t_test t) /\
  files w' !! train_csv = Some (to_csv (t_train t)) /\
  files w' !! test_csv = Some (to_csv (t_test t)).

(** The text of a CSV file with the given header and data rows. *)
Definition csv_of (header : list pyobj) (rows : list (list pyobj)) : string :=
  String.concat "" (map writerow (header :: rows)).

(** ** The module level: the logger and its handlers *)

(** The numeric value of a level. *)
Definition levelno (lv : level) : nat :=
  match lv with
  | DEBUG => 10
  | INFO => 20
  | WARNING => 30
  | ERROR => 40
  | CRITICAL => 50
  end.

(** A handler: its own level, and what it does to the world with a
    record (creation time, level, message) that passes it. *)
Record handler : Type := mkHandler {
  h_level : level;
  h_emit : nat -> level -> string -> World -> World
}.

(** The interpreter while it holds the module: the world, and the logger
    ["data_ingestion"] with its effective level and its handlers. *)
Record Process : Type := mkProcess {
  world : World;
  logger_level : level;
  handlers : list handler
}.

Definition set_stderr (lines : list string) (w : World) : World :=
  {| files := files w; dirs := dirs w; faults := faults w; remote := remote w;
     requests := requests w; stdout := stdout w; stderr := lines; clock := clock w |}.

Definition set_clock (t : nat) (w : World) : World :=
  {| files := files w; dirs := dirs w; faults := faults w; remote := remote w;
     requests := requests w; stdout := stdout w; stderr := stderr w; clock := t |}.


(** A file opened for appending: a missing file is created empty, an
    existing one is left as it is. *)
Definition opened (p : Path) (w : World) : World :=
  match files w !! p with
  | Some _ => w
  | None => set_files (<[p := ""]> (files w)) w
  end.

(** [open(path, "a")], as [FileHandler] does when it is made; the path
    must not be a directory and must lie in a directory. *)
Definition open_append (p : Path) : M unit :=
  fun w =>
    match faults w (SysOpen p) with
    | Some why => (w, inl (OSError why))
    | None =>
        if is_dir w p then (w, inl (OSError "Is a directory"))
        else if is_file w (parent p) then (w, inl (OSError "Not a directory"))
        else
          match parent p with
          | [] => (opened p w, inr tt)
          | _ =>
              if is_dir w (parent p) then (opened p w, inr tt)
              else (w, inl (FileNotFoundError (path_str p)))
          end
    end.

(** [ch]: the console handler, level DEBUG, with the formatter [fmt]. *)
Definition ch : handler :=
  {| h_level := DEBUG;
     h_emit := fun t lv message w => set_stderr (stderr w ++ [fmt t lv message])%list w |}.

(** [fh]: the file handler on [logs/data_ingestion.log], level DEBUG, with
    the formatter [fmt]. *)
Definition fh : handler :=
  {| h_level := DEBUG;
     h_emit := fun t lv message w =>
       set_files (<[LOG_FILE := default "" (files w !! LOG_FILE) +:+ fmt t lv message +:+ newline]>
                    (files w)) w |}.

(** The statements at the top of the module, in their order: make
    [logs/], get the logger and set it to DEBUG, make the two handlers (the
    file handler opens its file), and attach both when the logger has no
    handler yet.  An exception ends the import. *)
Definition module_level (p : Process) : Process * result unit :=
  match mkdir LOG_DIR (world p) with
  | (w1, inl e) =>
      ({| world := w1; logger_level := logger_level p; handlers := handlers p |}, inl e)
  | (w1, inr _) =>
      match open_append LOG_FILE w1 with
      | (w2, inl e) =>
          ({| world := w2; logger_level := DEBUG; handlers := handlers p |}, inl e)
      | (w2, inr _) =>
          ({| world := w2; logger_level := DEBUG;
              handlers := match handlers p with
                          | [] => [ch; fh]
                          | hs => hs
                          end |}, inr tt)
      end
  end.

(** The handler of last resort of [logging]: it prints the bare message
    of a record from WARNING on that found no handler. *)
Definition lastResort : handler :=
  {| h_level := WARNING;
     h_emit := fun t lv message w => set_stderr (stderr w ++ [message])%list w |}.

(** A handler takes the records at or above its level. *)
Definition handle (h : handler) (t : nat) (lv : level) (message : string) (w : World) : World :=
  if Nat.leb (levelno (h_level h)) (levelno lv) then h_emit h t lv message w else w.

(** [logger.log(lv, message)]: a record at or above the level of the
    logger is created once and handed to the handlers in their order, or to
    [lastResort] when there is none (the root logger has no handler of its
    own in a process that runs this module alone). *)
Definition logger_log (p : Process) (lv : level) (message : string) : Process :=
  if Nat.leb (levelno (logger_level p)) (levelno lv)
  then
    let t := clock (world p) in
    let found := match handlers p with
                 | [] => [lastResort]
                 | hs => hs
                 end in
    {| world := set_clock (S t)
                  (fold_left (fun w h => handle h t lv message w) found (world p));
       logger_level := logger_level p;
       handlers := handlers p |}
  else p.

(** A new interpreter: the logger does not exist yet, so it has no
    handler and the level of the root logger. *)
Definition fresh_process (w : World) : Process :=
  {| world := w; logger_level := WARNING; handlers := [] |}.

(** [python data_ingestion.py]: the module level, then [main()]; the exit
    status is 1 when an exception escapes. *)
Definition script (w : World) : World * Z :=
  match module_level (fresh_process w) with
  | (p, inl _) => (world p, 1)
  | (p, inr _) => (fst (main (world p)), exit_status (snd (main (world p))))
  end.

(** ** Further vocabulary *)

(** Every row has one cell per column. *)
Definition rectangular (df : DataFrame) : Prop :=
  Forall (fun r => length (snd r) = length (columns df)) (records df).

(** The world in which [main] calls [train_test_split]: the configuration
    was loaded, the table fetched and normalized. *)
Definition prepared (w : World) : World :=
  logged DEBUG "Data preprocessing completed"
    (logged DEBUG ("Data loaded from " +:+ data_url)
       (requested data_url
          (logged DEBUG "Parameters retrieved from params.yaml" w))).

(** The log file has kept what it held and may have got more. *)
Definition log_appended : relation World :=
  fun w w' =>
    exists more, default "" (files w' !! LOG_FILE) = default "" (files w !! LOG_FILE) +:+ more.

(** [params.yaml] can be read and gives the test size [ts]. *)
Definition configured (w : World) (ts : pyobj) : Prop :=
  exists content params section,
    faults w (SysOpen params_yaml) = None /\
    files w !! params_yaml = Some content /\
    yaml_safe_load content = inr params /\
    getitem params "data_ingestion" = inr section /\
    getitem section "test_size" = inr ts.

(** Every stage before [save_data] goes through in [w]: the configuration
    gives the test size [ts], the fetch yields [df] with its placeholder
    columns, and the split of the normalized table returns [train] and
    [test]. *)
Definition reaches_save (w : World) (ts : pyobj) (df train test : DataFrame) : Prop :=
  configured w ts /\
  remote w data_url = inr df /\
  (forall c, In c placeholders -> In c (columns df)) /\
  train_test_split (normalized df) ts 2 = inr (train, test).

(** The world a call of [save_data] leaves when it returns. *)
Definition saved (train_df test_df : DataFrame) (data_root : Path) (w : World) : World :=
  logged DEBUG ("Train and test data saved to " +:+ path_str (data_root // "raw"))
    (set_files (<[data_root // "raw" // "test.csv" := to_csv test_df]>
                  (<[data_root // "raw" // "train.csv" := to_csv train_df]> (files w)))
       (set_dirs (dirs w ∪ list_to_set (with_parents (data_root // "raw"))) w)).

(** ** A concrete instance

    One choice for each library behaviour the script is parametric in, a
    small table and a few worlds, on which the theorems below are run. *)

(** A shuffle that reverses the positions. *)
Definition sample_permutation (seed n : nat) : list nat := rev (seq 0 n).

(** The one text the sample parser reads as a configuration. *)
Definition sample_config : string := "data_ingestion: {test_size: 0.2}".

(** A parser for three kinds of text: the configuration, the empty file,
    and anything else, which it rejects. *)
Definition sample_yaml (text : string) : result pyobj :=
  if String.eqb text sample_config
  then inr (PyDict [(PyStr "data_ingestion", PyDict [(PyStr "test_size", PyFloat one_fifth)])])
  else if String.eqb text "" then inr PyNone
  else inl (YAMLError "mapping values are not allowed here").

(** A rendering of exceptions. *)
Definition sample_str (e : exn) : string :=
  match e with
  | FileNotFoundError p => "No such file or directory: " +:+ p
  | KeyError labels => String.concat ", " labels
  | TypeError t => t +:+ " object is not subscriptable"
  | OSError d | YAMLError d | ParserError d | ValueError d | IndexError d => d
  | OtherError _ d => d
  end.

(** A clock that has stopped. *)
Definition sample_asctime (t : nat) : string := "2024-01-01 00:00:00".

Definition cell_text (o : pyobj) : string :=
  match o with
  | PyStr s => s
  | _ => ""
  end.

(** Rows written without quoting: strings as they are, anything else
    as an empty field. *)
Definition sample_writerow (cells : list pyobj) : string :=
  String.concat "," (map cell_text cells) +:+ newline.

Definition sample_words : list string :=
  ["zero"; "one"; "two"; "three"; "four"; "five"; "six"; "seven"; "eight"; "nine"].

(** Ten rows, labelled 0 to 9, each with its own text. *)
Definition sample_rows (cells : string -> list pyobj) : list (nat * list pyobj) :=
  map (fun i => (i, cells (nth i sample_words ""))) (seq 0 10).

(** Ten rows under the five columns of the spam table. *)
Definition sample_frame : DataFrame :=
  {| columns := ["v1"; "v2"; "Unnamed: 2"; "Unnamed: 3"; "Unnamed: 4"];
     records := sample_rows (fun text =>
       [PyStr "ham"; PyStr text; PyFloat nan; PyFloat nan; PyFloat nan]) |}.

(** The same table without its [v1] column. *)
Definition frame_without_v1 : DataFrame :=
  {| columns := ["v2"; "Unnamed: 2"; "Unnamed: 3"; "Unnamed: 4"];
     records := sample_rows (fun text =>
       [PyStr text; PyFloat nan; PyFloat nan; PyFloat nan]) |}.

(** A table that has lost a placeholder column. *)
Definition frame_without_unnamed_3 : DataFrame :=
  {| columns := ["v1"; "v2"; "Unnamed: 2"; "Unnamed: 4"];
     records := sample_rows (fun text =>
       [PyStr "ham"; PyStr text; PyFloat nan; PyFloat nan]) |}.

(** A world with the given files in which the fetch yields [response] and
    the system refuses nothing. *)
Definition world_with (fs : gmap Path string) (response : result DataFrame) : World :=
  {| files := fs; dirs := ∅; faults := fun _ => None;
     remote := fun _ => response;
     requests := []; stdout := []; stderr := []; clock := 0 |}.

(** The fetch fails. *)
Definition unreachable : result DataFrame := inl (OtherError "URLError" "unreachable").

(** No [params.yaml], nothing to fetch. *)
Definition bare_world : World := world_with ∅ unreachable.

(** A configuration and the table, nothing else. *)
Definition fresh_world : World :=
  world_with {[ params_yaml := sample_config ]} (inr sample_frame).

(** The same inputs in a directory that has been used before. *)
Definition used_world : World :=
  {| files := {[ params_yaml := sample_config; train_csv := "stale"; test_csv := "stale";
                 LOG_FILE := "earlier records" ]};
     dirs := {[ ["data"]; ["data"; "raw"]; ["logs"] ]};
     faults := fun _ => None;
     remote := fun _ => inr sample_frame;
     requests := []; stdout := ["hello"]; stderr := []; clock := 7 |}.

(** A configuration that is no YAML. *)
Definition bad_yaml_world : World :=
  world_with {[ params_yaml := "data_ingestion: test_size: 0.2" ]} (inr sample_frame).

(** An empty configuration file. *)
Definition empty_yaml_world : World :=
  world_with {[ params_yaml := "" ]} (inr sample_frame).

(** The fetch yields the table without [v1]. *)
Definition world_without_v1 : World :=
  world_with {[ params_yaml := sample_config ]} (inr frame_without_v1).

(** The fetch yields the table without [Unnamed: 3]. *)
Definition world_without_unnamed_3 : World :=
  world_with {[ params_yaml := sample_config ]} (inr frame_without_unnamed_3).

(** One row of the sample table. *)
Definition one_row_frame : DataFrame :=
  {| columns := columns sample_frame; records := take 1 (records sample_frame) |}.

(** The fetch yields a table of one row. *)
Definition one_row_world : World :=
  world_with {[ params_yaml := sample_config ]} (inr one_row_frame).

(** [params.yaml] is there, but the system refuses to open it. *)
Definition locked_world : World :=
  {| files := {[ params_yaml := sample_config ]};
     dirs := ∅;
     faults := fun c =>
       match c with
       | SysOpen p => if bool_decide (p = params_yaml) then Some "Permission denied" else None
       | _ => None
       end;
     remote := fun _ => inr sample_frame;
     requests := []; stdout := []; stderr := []; clock := 0 |}.

(** The used directory on a disk that is full by the time [test.csv] is
    written. *)
Definition full_disk_world : World :=
  {| files := files used_world;
     dirs := dirs used_world;
     faults := fun c =>
       match c with
       | SysWrite p =>
           if bool_decide (p = test_csv) then Some "No space left on device" else None
       | _ => None
       end;
     remote := remote used_world;
     requests := []; stdout := []; stderr := []; clock := 7 |}.

(** ** Facts about the monad *)

Lemma preserves_ret {A} (R : relation World) `{!Reflexive R} (a : A) :
  preserves R (ret a).
Proof. intros w. simpl. reflexivity. Qed.

Lemma preserves_raise {A} (R : relation World) `{!Reflexive R} (e : exn) :
  preserves R (@raise A e).
Proof. intros w. simpl. reflexivity. Qed.

Lemma preserves_lift {A} (R : relation World) `{!Reflexive R} (r : result A) :
  preserves R (lift r).
Proof. intros w. simpl. reflexivity. Qed.

Lemma preserves_bind {A B} (R : relation World) `{!Transitive R}
    (m : M A) (k : A -> M B) :
  preserves R m -> (forall a, preserves R (k a)) -> preserves R (bind m k).
Proof.
  intros Hm Hk w. unfold bind. specialize (Hm w).
  destruct (m w) as [w' [e | a]]; simpl in *.
  - exact Hm.
  - transitivity w'; [exact Hm | apply Hk].
Qed.

Lemma preserves_try_except {A} (R : relation World) `{!Transitive R}
    (body : M A) (handler : exn -> M A) :
  preserves R body -> (forall e, preserves R (handler e)) ->
  preserves R (try_except body handler).
Proof.
  intros Hb Hh w. unfold try_except. specialize (Hb w).
  destruct (body w) as [w' [e | a]]; simpl in *.
  - transitivity w'; [exact Hb | apply Hh].
  - exact Hb.
Qed.

#[local] Instance same_env_preorder : PreOrder same_env.
Proof.
  split.
  - intros w. split; reflexivity.
  - intros a b c [H1 H2] [H3 H4]. split; congruence.
Qed.

#[local] Instance same_stdout_preorder : PreOrder same_stdout.
Proof. split; unfold same_stdout; [intros w | intros a b c ? ?]; congruence. Qed.

#[local] Instance same_requests_preorder : PreOrder same_requests.
Proof. split; unfold same_requests; [intros w | intros a b c ? ?]; congruence. Qed.

#[local] Instance same_dirs_preorder : PreOrder same_dirs.
Proof. split; unfold same_dirs; [intros w | intros a b c ? ?]; congruence. Qed.

#[local] Instance same_files_but_preorder touched : PreOrder (same_files_but touched).
Proof.
  split.
  - intros w p _. reflexivity.
  - intros a b c Hab Hbc p Hp. rewrite (Hbc p Hp). apply Hab, Hp.
Qed.

#[local] Instance stderr_grows_preorder : PreOrder stderr_grows.
Proof.
  split.
  - intros w. exists []. symmetry. apply app_nil_r.
  - intros a b c [l1 H1] [l2 H2]. exists (l1 ++ l2)%list.
    rewrite H2, H1. symmetry. apply app_assoc.
Qed.

Create HintDb frame discriminated.

#[local] Hint Resolve preserves_ret preserves_raise preserves_lift : frame.
#[local] Hint Extern 2 (preserves _ (bind _ _)) =>
  apply preserves_bind; [typeclasses eauto | | intros ?] : frame.
#[local] Hint Extern 2 (preserves _ (try_except _ _)) =>
  apply preserves_try_except; [typeclasses eauto | | intros ?] : frame.
#[local] Hint Extern 3 (preserves _ (match ?e with _ => _ end)) => destruct e : frame.
#[local] Hint Extern 1 (Reflexive _) => typeclasses eauto : frame.

(** *** The primitives *)

Lemma print_env line : preserves same_env (print line).
Proof. intros w. split; reflexivity. Qed.

Lemma print_requests line : preserves same_requests (print line).
Proof. intros w. reflexivity. Qed.

Lemma print_dirs line : preserves same_dirs (print line).
Proof. intros w. reflexivity. Qed.

Lemma print_files touched line : preserves (same_files_but touched) (print line).
Proof. intros w p _. reflexivity. Qed.

(** Case analysis on the checks a file-system call makes. *)
Ltac fs_cases :=
  repeat match goal with
    | |- context [match faults ?w ?c with _ => _ end] => destruct (faults w c)
    | |- context [match files ?w !! ?p with _ => _ end] => destruct (files w !! p)
    | |- context [if ?b then _ else _] => destruct b
    | |- context [match parent ?p with _ => _ end] => destruct (parent p)
    end.

Lemma read_text_same p (R : relation World) `{!Reflexive R} : preserves R (read_text p).
Proof. intros w. unfold read_text. fs_cases; reflexivity. Qed.

Lemma mkdir_env p : preserves same_env (mkdir p).
Proof. intros w. unfold mkdir. fs_cases; split; reflexivity. Qed.

Lemma mkdir_stdout p : preserves same_stdout (mkdir p).
Proof. intros w. unfold mkdir. fs_cases; reflexivity. Qed.

Lemma mkdir_requests p : preserves same_requests (mkdir p).
Proof. intros w. unfold mkdir. fs_cases; reflexivity. Qed.

Lemma mkdir_files touched p : preserves (same_files_but touched) (mkdir p).
Proof. intros w. unfold mkdir. fs_cases; intros q _; reflexivity. Qed.

Lemma mkdir_stderr p : preserves stderr_grows (mkdir p).
Proof. intros w. unfold mkdir. fs_cases; exists []; symmetry; apply app_nil_r. Qed.

Lemma write_text_env p data : preserves same_env (write_text p data).
Proof. intros w. unfold write_text. fs_cases; split; reflexivity. Qed.

Lemma write_text_stdout p data : preserves same_stdout (write_text p data).
Proof. intros w. unfold write_text. fs_cases; reflexivity. Qed.

Lemma write_text_requests p data : preserves same_requests (write_text p data).
Proof. intros w. unfold write_text. fs_cases; reflexivity. Qed.

Lemma write_text_dirs p data : preserves same_dirs (write_text p data).
Proof. intros w. unfold write_text. fs_cases; reflexivity. Qed.

Lemma write_text_stderr p data : preserves stderr_grows (write_text p data).
Proof. intros w. unfold write_text. fs_cases; exists []; symmetry; apply app_nil_r. Qed.

Lemma write_text_files touched p data :
  In p touched -> preserves (same_files_but touched) (write_text p data).
Proof.
  intros Hin w. unfold write_text.
  fs_cases; try reflexivity;
    intros q Hq; cbn [fst files set_files]; apply lookup_insert_ne; intros ->; contradiction.
Qed.

Lemma read_csv_env url : preserves same_env (read_csv url).
Proof. intros w. split; reflexivity. Qed.

Lemma read_csv_stdout url : preserves same_stdout (read_csv url).
Proof. intros w. reflexivity. Qed.

Lemma read_csv_dirs url : preserves same_dirs (read_csv url).
Proof. intros w. reflexivity. Qed.

Lemma read_csv_files touched url : preserves (same_files_but touched) (read_csv url).
Proof. intros w p _. reflexivity. Qed.

Lemma read_csv_stderr url : preserves stderr_grows (read_csv url).
Proof. intros w. exists []. symmetry. apply app_nil_r. Qed.

Lemma emit_env lv msg : preserves same_env (emit lv msg).
Proof. intros w. split; reflexivity. Qed.

Lemma emit_stdout lv msg : preserves same_stdout (emit lv msg).
Proof. intros w. reflexivity. Qed.

Lemma emit_requests lv msg : preserves same_requests (emit lv msg).
Proof. intros w. reflexivity. Qed.

Lemma emit_dirs lv msg : preserves same_dirs (emit lv msg).
Proof. intros w. reflexivity. Qed.

Lemma emit_stderr lv msg : preserves stderr_grows (emit lv msg).
Proof. intros w. eexists. reflexivity. Qed.

Lemma emit_files touched lv msg :
  In LOG_FILE touched -> preserves (same_files_but touched) (emit lv msg).
Proof.
  intros Hin w q Hq. unfold emit, logged. cbn [fst files].
  apply lookup_insert_ne. intros Heq. subst q. contradiction.
Qed.

#[local] Hint Resolve print_env print_requests print_dirs print_files
  read_text_same mkdir_env mkdir_stdout mkdir_requests mkdir_files mkdir_stderr
  write_text_env write_text_stdout write_text_requests write_text_dirs
  write_text_stderr write_text_files
  read_csv_env read_csv_stdout read_csv_dirs read_csv_files read_csv_stderr
  emit_env emit_stdout emit_requests emit_dirs emit_stderr emit_files : frame.

(** ** Facts about data frames *)

Lemma has_label_In cols l : has_label cols l = true <-> In l cols.
Proof.
  unfold has_label. rewrite existsb_exists. split.
  - intros [c [Hin Heq]]. apply String.eqb_eq in Heq. subst. exact Hin.
  - intros Hin. exists l. split; [exact Hin | apply String.eqb_refl].
Qed.

Lemma has_label_placeholders c : has_label placeholders c = is_placeholder c.
Proof.
  unfold has_label, placeholders, is_placeholder. simpl.
  rewrite orb_false_r, orb_assoc. reflexivity.
Qed.

Lemma mapper_get_new_label c :
  mapper_get [("v1", "target"); ("v2", "text")] c = new_label c.
Proof.
  unfold new_label.
  rewrite (String.eqb_sym c "v1"), (String.eqb_sym c "v2"). reflexivity.
Qed.

Lemma select_map_self (f : string -> bool) cols :
  select (map f cols) cols = List.filter f cols.
Proof.
  induction cols as [| c cols IH]; simpl; [reflexivity |].
  rewrite IH. reflexivity.
Qed.

Lemma select_map_lookup {A} (f : string -> bool) cols (xs : list A) j c :
  cols !! j = Some c -> f c = true ->
  select (map f cols) xs !! length (List.filter f (take j cols)) = xs !! j.
Proof.
  revert xs j. induction cols as [| c0 cols IH]; intros xs j Hj Hc.
  - destruct j; discriminate.
  - destruct j as [| j]; simpl in Hj.
    + injection Hj as ->. simpl. rewrite Hc. destruct xs; reflexivity.
    + simpl. destruct xs as [| x xs]; [destruct (f c0); reflexivity |].
      destruct (f c0); simpl; apply IH; assumption.
Qed.

(** The labels [drop_columns] complains about are the requested labels
    that are no column. *)
Lemma drop_columns_missing labels df :
  drop_columns labels df =
    match List.filter (fun l => negb (has_label (columns df) l)) labels with
    | [] => drop_columns labels df
    | missing => inl (KeyError missing)
    end.
Proof. unfold drop_columns. destruct (List.filter _ labels); reflexivity. Qed.

Lemma drop_columns_inr labels df :
  (forall l, In l labels -> In l (columns df)) ->
  drop_columns labels df =
    inr {| columns := List.filter (fun c => negb (has_label labels c)) (columns df);
           records := map (fun r => (fst r, select (map (fun c => negb (has_label labels c)) (columns df)) (snd r)))
                          (records df) |}.
Proof.
  intros Hall. unfold drop_columns.
  assert (Hnone : List.filter (fun l => negb (has_label (columns df) l)) labels = []).
  { induction labels as [| l labels IH]; [reflexivity |]. simpl.
    assert (Hl : has_label (columns df) l = true)
      by (apply has_label_In, Hall; left; reflexivity).
    rewrite Hl. simpl. apply IH. intros l' Hl'. apply Hall. right. exact Hl'. }
  rewrite Hnone, select_map_self. reflexivity.
Qed.

Lemma drop_columns_inl labels df :
  (exists l, In l labels /\ ~ In l (columns df)) ->
  exists missing, drop_columns labels df = inl (KeyError missing) /\
    missing <> [] /\
    forall l, In l missing <-> In l labels /\ ~ In l (columns df).
Proof.
  intros [l [Hl Hnot]]. unfold drop_columns.
  set (missing := List.filter (fun l => negb (has_label (columns df) l)) labels).
  assert (Hspec : forall l', In l' missing <-> In l' labels /\ ~ In l' (columns df)).
  { intros l'. unfold missing. rewrite filter_In, negb_true_iff.
    rewrite <- not_true_iff_false, has_label_In. reflexivity. }
  assert (Hin : In l missing) by (apply Hspec; split; assumption).
  destruct missing as [| m ms] eqn:E; [destruct Hin |].
  exists (m :: ms). split; [reflexivity |]. split; [discriminate | exact Hspec].
Qed.

Lemma drop_columns_inv labels df df' :
  drop_columns labels df = inr df' -> forall l, In l labels -> In l (columns df).
Proof.
  intros Hd l Hl. destruct (in_dec string_dec l (columns df)) as [Hin | Hout]; [exact Hin |].
  destruct (drop_columns_inl labels df) as [missing [Hm _]]; [exists l; split; assumption |].
  congruence.
Qed.

(** ** Running the monad *)

Lemma bind_inr {A B} (m : M A) (k : A -> M B) w w1 a :
  m w = (w1, inr a) -> bind m k w = k a w1.
Proof. intros H. unfold bind. rewrite H. reflexivity. Qed.

Lemma bind_inl {A B} (m : M A) (k : A -> M B) w w1 e :
  m w = (w1, inl e) -> bind m k w = (w1, inl e).
Proof. intros H. unfold bind. rewrite H. reflexivity. Qed.

Lemma try_except_inr {A} (body : M A) handler w w1 a :
  body w = (w1, inr a) -> try_except body handler w = (w1, inr a).
Proof. intros H. unfold try_except. rewrite H. reflexivity. Qed.

Lemma try_except_inl {A} (body : M A) handler w w1 e :
  body w = (w1, inl e) -> try_except body handler w = handler e w1.
Proof. intros H. unfold try_except. rewrite H. reflexivity. Qed.

(** ** The stages, case by case *)

Lemma load_params_spec params_path w :
  load_params params_path w =
    match faults w (SysOpen params_path) with
    | Some why => (w, inl (OSError why))
    | None =>
        match files w !! params_path with
        | None =>
            if is_dir w params_path then (w, inl (OSError "Is a directory"))
            else
              (logged ERROR ("File not found: " +:+ path_str params_path) w,
               inl (FileNotFoundError (path_str params_path)))
        | Some content =>
            match yaml_safe_load content with
            | inl e => (load_params_failed params_path e w, inl e)
            | inr params =>
                (logged DEBUG ("Parameters retrieved from " +:+ path_str params_path) w,
                 inr params)
            end
        end
    end.
Proof.
  unfold load_params, try_except, bind, read_text, lift, load_params_failed.
  destruct (faults w (SysOpen params_path)); [reflexivity |].
  destruct (files w !! params_path) as [content |];
    [| destruct (is_dir w params_path); reflexivity].
  destruct (yaml_safe_load content) as [e | params]; [| reflexivity].
  destruct e; reflexivity.
Qed.

Lemma load_data_spec url w :
  load_data url w =
    match remote w url with
    | inl e => (logged ERROR (load_data_message e) (requested url w), inl e)
    | inr df => (logged DEBUG ("Data loaded from " +:+ url) (requested url w), inr df)
    end.
Proof.
  unfold load_data, try_except, bind, read_csv, load_data_message.
  destruct (remote w url) as [e | df]; [| reflexivity].
  destruct e; reflexivity.
Qed.

Lemma preprocess_data_spec df w :
  preprocess_data df w =
    match drop_columns placeholders df with
    | inl e =>
        (logged ERROR ("Missing column in the dataframe: " +:+ py_str e) w, inl e)
    | inr df0 =>
        (logged DEBUG "Data preprocessing completed" w,
         inr (rename_columns [("v1", "target"); ("v2", "text")] df0))
    end.
Proof.
  unfold preprocess_data, try_except, bind, lift. fold placeholders.
  destruct (drop_columns placeholders df) as [e | df0] eqn:E; [| reflexivity].
  unfold drop_columns in E.
  destruct (List.filter _ placeholders); [discriminate |].
  injection E as <-. reflexivity.
Qed.

Lemma joinpath_inj p q c d : p // c = q // d -> p = q /\ c = d.
Proof. unfold joinpath. intros H. apply app_inj_tail in H. exact H. Qed.

Lemma raw_file_not_log root name : root // "raw" // name <> LOG_FILE.
Proof.
  unfold LOG_FILE. intros H. apply joinpath_inj in H as [H _].
  unfold LOG_DIR in H. destruct root as [| c [| c' root]]; discriminate.
Qed.

Lemma train_not_test root : root // "raw" // "train.csv" <> root // "raw" // "test.csv".
Proof. intros H. apply joinpath_inj in H as [_ H]. discriminate. Qed.

(** *** Directories and files *)

Lemma mkdir_ok p w :
  faults w (SysMkdir p) = None ->
  existsb (is_file w) (with_parents p) = false ->
  mkdir p w = (set_dirs (dirs w ∪ list_to_set (with_parents p)) w, inr tt).
Proof. intros Hf Hb. unfold mkdir. rewrite Hf, Hb. reflexivity. Qed.

Lemma mkdir_inr p w w' :
  mkdir p w = (w', inr tt) -> w' = set_dirs (dirs w ∪ list_to_set (with_parents p)) w.
Proof.
  unfold mkdir. fs_cases; try discriminate. intros H. injection H as <-. reflexivity.
Qed.

Lemma write_text_ok p data w :
  faults w (SysWrite p) = None ->
  is_dir w p = false ->
  is_file w (parent p) = false ->
  parent p = [] \/ is_dir w (parent p) = true ->
  write_text p data w = (set_files (<[p := data]> (files w)) w, inr tt).
Proof.
  intros Hf Hd Hp Hin. unfold write_text. rewrite Hf, Hd, Hp.
  destruct (parent p) as [| c q]; [reflexivity |].
  destruct Hin as [Hin | Hin]; [discriminate | rewrite Hin; reflexivity].
Qed.

Lemma write_text_inr p data w w' :
  write_text p data w = (w', inr tt) -> w' = set_files (<[p := data]> (files w)) w.
Proof.
  unfold write_text. fs_cases; try discriminate; intros H; injection H as <-; reflexivity.
Qed.

Lemma parent_joinpath p c : parent (p // c) = p.
Proof. unfold parent, joinpath. apply removelast_last. Qed.

Lemma with_parents_length (p q : Path) : In q (with_parents p) -> (length q <= length p)%nat.
Proof.
  revert q. induction p as [| c p IH]; intros q Hq; [destruct Hq |].
  simpl in Hq. destruct Hq as [<- | Hq]; [simpl; lia |].
  apply in_map_iff in Hq as [q' [<- Hq']]. simpl. apply IH in Hq'. lia.
Qed.

Lemma with_parents_self p : p <> [] -> In p (with_parents p).
Proof.
  induction p as [| c p IH]; [congruence |]. intros _. simpl.
  destruct p as [| c' p]; [left; reflexivity |].
  right. apply in_map, IH. discriminate.
Qed.

Lemma joinpath_not_nil p c : p // c <> [].
Proof. unfold joinpath. destruct p; discriminate. Qed.

Lemma child_not_parent (p : Path) c :
  (p // c) ∉ (list_to_set (with_parents p) : gset Path).
Proof.
  rewrite elem_of_list_to_set, list_elem_of_In. intros H.
  apply with_parents_length in H. unfold joinpath in H. rewrite length_app in H.
  simpl in H. lia.
Qed.

(** Once the directory is made, a file in it that is no directory can be
    written. *)
Lemma write_after_mkdir p c data w0 w :
  dirs w = dirs w0 ∪ list_to_set (with_parents p) ->
  p <> [] ->
  faults w (SysWrite (p // c)) = None ->
  is_dir w0 (p // c) = false ->
  is_file w p = false ->
  write_text (p // c) data w = (set_files (<[p // c := data]> (files w)) w, inr tt).
Proof.
  intros Hdirs Hp Hf Hd Hfile. apply write_text_ok.
  - exact Hf.
  - unfold is_dir in *. apply bool_decide_eq_false. apply bool_decide_eq_false in Hd.
    rewrite Hdirs. intros Hin. apply elem_of_union in Hin as [Hin | Hin]; [contradiction |].
    revert Hin. apply child_not_parent.
  - rewrite parent_joinpath. exact Hfile.
  - right. rewrite parent_joinpath. unfold is_dir. apply bool_decide_eq_true.
    rewrite Hdirs. apply elem_of_union_r, elem_of_list_to_set, list_elem_of_In.
    apply with_parents_self, Hp.
Qed.

Lemma save_data_spec train_df test_df root w :
  save_data train_df test_df root w =
    match mkdir (root // "raw") w with
    | (w1, inl e) => (logged ERROR (save_data_message e) w1, inl e)
    | (w1, inr _) =>
        match write_text (root // "raw" // "train.csv") (to_csv train_df) w1 with
        | (w2, inl e) => (logged ERROR (save_data_message e) w2, inl e)
        | (w2, inr _) =>
            match write_text (root // "raw" // "test.csv") (to_csv test_df) w2 with
            | (w3, inl e) => (logged ERROR (save_data_message e) w3, inl e)
            | (w3, inr _) =>
                (logged DEBUG ("Train and test data saved to " +:+ path_str (root // "raw")) w3,
                 inr tt)
            end
        end
    end.
Proof.
  unfold save_data, try_except, bind, logger_debug, logger_error, emit, raise, save_data_message.
  cbv zeta.
  destruct (mkdir (root // "raw") w) as [w1 [e | []]]; [reflexivity |].
  destruct (write_text (root // "raw" // "train.csv") (to_csv train_df) w1)
    as [w2 [e | []]]; [reflexivity |].
  destruct (write_text (root // "raw" // "test.csv") (to_csv test_df) w2)
    as [w3 [e | []]]; reflexivity.
Qed.

(** When [save_data] returns, both files hold the serializations it was
    given, whatever they held before. *)
Lemma save_data_inr train_df test_df root w w' :
  save_data train_df test_df root w = (w', inr tt) ->
  files w' !! (root // "raw" // "train.csv") = Some (to_csv train_df) /\
  files w' !! (root // "raw" // "test.csv") = Some (to_csv test_df).
Proof.
  pose proof (raw_file_not_log root "train.csv") as Hl1.
  pose proof (raw_file_not_log root "test.csv") as Hl2.
  pose proof (train_not_test root) as Hne.
  rewrite save_data_spec.
  destruct (mkdir (root // "raw") w) as [w1 [e | []]] eqn:E1; [discriminate |].
  destruct (write_text (root // "raw" // "train.csv") (to_csv train_df) w1)
    as [w2 [e | []]] eqn:E2; [discriminate |].
  destruct (write_text (root // "raw" // "test.csv") (to_csv test_df) w2)
    as [w3 [e | []]] eqn:E3; [discriminate |].
  apply write_text_inr in E2, E3. subst w2 w3.
  intros H. injection H as <-. unfold logged. cbn [files set_files].
  split.
  - rewrite lookup_insert_ne by congruence.
    rewrite lookup_insert_ne by congruence.
    apply lookup_insert_eq.
  - rewrite lookup_insert_ne by congruence.
    apply lookup_insert_eq.
Qed.

Lemma is_file_insert_ne p q data w :
  p <> q -> is_file (set_files (<[p := data]> (files w)) w) q = is_file w q.
Proof. intros Hne. unfold is_file. cbn [files set_files]. rewrite lookup_insert_ne by exact Hne. reflexivity. Qed.

Lemma joinpath_not_self p c : p // c <> p.
Proof.
  unfold joinpath. intros H. apply (f_equal (@length _)) in H.
  rewrite length_app in H. simpl in H. lia.
Qed.

Lemma save_data_returns train_df test_df root w :
  writable root w ->
  exists w', save_data train_df test_df root w = (w', inr tt).
Proof.
  intros (Hm & Ht & He & Hf & Hd1 & Hd2).
  assert (Hraw : is_file w (root // "raw") = false).
  { destruct (is_file w (root // "raw")) eqn:E; [| reflexivity].
    rewrite <- Hf. symmetry. apply existsb_exists. exists (root // "raw").
    split; [apply with_parents_self, joinpath_not_nil | exact E]. }
  rewrite save_data_spec, (mkdir_ok _ _ Hm Hf).
  rewrite (write_after_mkdir (root // "raw") "train.csv" _ w);
    [| reflexivity | apply joinpath_not_nil | exact Ht | exact Hd1 | exact Hraw].
  rewrite (write_after_mkdir (root // "raw") "test.csv" _ w);
    [| reflexivity | apply joinpath_not_nil | exact He | exact Hd2 |].
  - eexists. reflexivity.
  - rewrite is_file_insert_ne; [exact Hraw | apply joinpath_not_self].
Qed.

(** ** Facts about the split *)

Lemma validate_first n test_size default a b :
  validate_shuffle_split n test_size None default = inr (a, b) ->
  a = n - b /\ a <> 0.
Proof.
  unfold validate_shuffle_split.
  set (ts := match test_size with PyNone => PyFloat default | _ => test_size end).
  destruct (match ts with PyInt k => _ | PyFloat f => _ | _ => false end); [discriminate |].
  cbv zeta.
  assert (Hsized : forall k r, 
    (if n <? (n - k) + k then inl (ValueError "The sum of train_size and test_size is too large")
     else if (n - k) =? 0 then inl (ValueError "the resulting train set will be empty")
     else inr (n - k, k)) = inr r -> r = (a, b) -> a = n - b /\ a <> 0).
  { intros k r Hr ->. destruct (n <? n - k + k); [discriminate |].
    destruct (n - k =? 0) eqn:E; [discriminate |].
    injection Hr as <- <-. split; [reflexivity |]. apply Z.eqb_neq. exact E. }
  destruct ts; try discriminate.
  - intros H. eapply Hsized; [exact H | reflexivity].
  - destruct (math_ceil _) as [e | k]; [discriminate |].
    intros H. eapply Hsized; [exact H | reflexivity].
Qed.

Lemma validate_second n a b default a' b' :
  validate_shuffle_split n (PyInt b) (Some a) default = inr (a', b') ->
  a' = a /\ b' = b /\ 0 < b /\ 0 < a /\ a + b <= n.
Proof.
  unfold validate_shuffle_split.
  destruct ((n <=? b) || (b <=? 0)) eqn:Eb; [discriminate |].
  destruct ((n <=? a) || (a <=? 0)) eqn:Ea; [discriminate |].
  cbv zeta.
  destruct (n <? a + b) eqn:Es; [discriminate |].
  destruct (a =? 0); [discriminate |].
  intros H. injection H as <- <-.
  apply orb_false_iff in Eb as [Eb1 Eb2], Ea as [Ea1 Ea2]. lia.
Qed.

Lemma take_rows_lookup rs indices rs' :
  take_rows rs indices = inr rs' -> map Some rs' = map (fun i => rs !! i) indices.
Proof.
  revert rs'. induction indices as [| i indices IH]; intros rs' H; simpl in H.
  - injection H as <-. reflexivity.
  - destruct (rs !! i) as [r |] eqn:Ei; [| discriminate].
    destruct (take_rows rs indices) as [e | rs0]; [discriminate |].
    injection H as <-. simpl. rewrite Ei, (IH rs0 eq_refl). reflexivity.
Qed.

Lemma take_rows_length rs indices rs' :
  take_rows rs indices = inr rs' -> length rs' = length indices.
Proof.
  intros H. apply take_rows_lookup in H.
  apply (f_equal (@length _)) in H. rewrite !length_map in H. exact H.
Qed.

Lemma take_rows_returns rs indices :
  Forall (fun i => (i < length rs)%nat) indices -> exists rs', take_rows rs indices = inr rs'.
Proof.
  induction 1 as [| i indices Hi _ [rs' IH]]; simpl.
  - exists []. reflexivity.
  - destruct (lookup_lt_is_Some_2 rs i Hi) as [r Hr]. rewrite Hr, IH.
    exists (r :: rs'). reflexivity.
Qed.

Lemma take_rows_app rs idx1 idx2 rs1 rs2 :
  take_rows rs idx1 = inr rs1 -> take_rows rs idx2 = inr rs2 ->
  take_rows rs (idx1 ++ idx2)%list = inr (rs1 ++ rs2)%list.
Proof.
  revert rs1. induction idx1 as [| i idx1 IH]; intros rs1 H1 H2; simpl in *.
  - injection H1 as <-. exact H2.
  - destruct (rs !! i); [| discriminate].
    destruct (take_rows rs idx1) as [e | rs0]; [discriminate |].
    injection H1 as <-. rewrite (IH rs0 eq_refl H2). reflexivity.
Qed.

Lemma lookup_all_seq {A} (rs : list A) :
  map (fun i => rs !! i) (seq 0 (length rs)) = map Some rs.
Proof.
  induction rs as [| r rs IH]; [reflexivity |].
  simpl. f_equal. rewrite <- seq_shift, map_map. exact IH.
Qed.

Lemma map_Some_inj {A} (l k : list A) : map Some l = map Some k -> l = k.
Proof.
  revert k. induction l as [| x l IH]; intros [| y k] H; try discriminate; [reflexivity |].
  simpl in H. injection H as -> H. f_equal. apply IH, H.
Qed.

(** Rows taken at a permutation of all positions are a permutation of
    the rows. *)
Lemma take_rows_Permutation rs indices rs' :
  take_rows rs indices = inr rs' ->
  Permutation indices (seq 0 (length rs)) ->
  Permutation rs' rs.
Proof.
  intros Ht Hp. apply take_rows_lookup in Ht.
  apply (Permutation_map (fun i => rs !! i)) in Hp.
  rewrite lookup_all_seq, <- Ht in Hp.
  apply Permutation_map_inv in Hp as [l [Hl Hp]].
  apply map_Some_inj in Hl. subst l. symmetry. exact Hp.
Qed.

Lemma SFcompare_Lt_flip x y :
  SFcompare x y = Some Lt -> SFcompare y x = Some Gt.
Proof.
  destruct x as [sx | sx | | sx mx ex], y as [sy | sy | | sy my ey]; simpl;
    try destruct sx; try destruct sy; simpl; try congruence.
  all: rewrite (Z.compare_antisym ex ey);
    change (Pos.compare_cont Eq my mx) with (Pos.compare_cont (CompOpp Eq) my mx);
    rewrite <- (Pos.compare_cont_antisym mx my Eq);
    destruct (Z.compare ex ey); simpl; try congruence;
    destruct (Pos.compare_cont Eq mx my); simpl; congruence.
Qed.

(** [x < y] makes the test [y <= x] fail. *)
Lemma ltb_leb_flip (x y : float) :
  PrimFloat.ltb x y = true -> PrimFloat.leb y x = false.
Proof.
  rewrite ltb_spec, leb_spec. unfold SFltb, SFleb.
  destruct (SFcompare (Prim2SF x) (Prim2SF y)) as [[| |] |] eqn:E; try discriminate.
  intros _. rewrite (SFcompare_Lt_flip _ _ E). reflexivity.
Qed.

Lemma validate_fraction n f default k :
  is_fraction f = true ->
  math_ceil (PrimFloat.mul f (float_of_Z n)) = inr k ->
  k < n ->
  validate_shuffle_split n (PyFloat f) None default = inr (n - k, k).
Proof.
  intros Hf Hk Hlt. apply andb_true_iff in Hf as [H0 H1].
  apply ltb_leb_flip in H0, H1.
  unfold validate_shuffle_split. rewrite H0, H1. cbn [orb]. cbv zeta. rewrite Hk.
  replace (n <? n - k + k) with false by (symmetry; apply Z.ltb_ge; lia).
  replace (n - k =? 0) with false by (symmetry; apply Z.eqb_neq; lia).
  reflexivity.
Qed.

Lemma validate_fraction_inv n f default a b :
  validate_shuffle_split n (PyFloat f) None default = inr (a, b) ->
  math_ceil (PrimFloat.mul f (float_of_Z n)) = inr b.
Proof.
  unfold validate_shuffle_split.
  destruct (PrimFloat.leb f 0 || PrimFloat.leb 1 f)%bool; [discriminate |].
  cbv zeta. destruct (math_ceil _) as [e | k]; [discriminate |].
  destruct (n <? n - k + k); [discriminate |].
  destruct (n - k =? 0); [discriminate |].
  intros H. injection H as _ <-. reflexivity.
Qed.

Lemma validate_again n a b default :
  0 < b -> 0 < a -> a + b <= n ->
  validate_shuffle_split n (PyInt b) (Some a) default = inr (a, b).
Proof.
  intros Hb Ha Hn. unfold validate_shuffle_split.
  replace ((n <=? b) || (b <=? 0))%bool with false
    by (symmetry; apply orb_false_iff; split; apply Z.leb_gt; lia).
  replace ((n <=? a) || (a <=? 0))%bool with false
    by (symmetry; apply orb_false_iff; split; apply Z.leb_gt; lia).
  cbv zeta.
  replace (n <? a + b) with false by (symmetry; apply Z.ltb_ge; lia).
  replace (a =? 0) with false by (symmetry; apply Z.eqb_neq; lia).
  reflexivity.
Qed.

Lemma iloc_inr df indices df' :
  iloc df indices = inr df' ->
  columns df' = columns df /\ take_rows (records df) indices = inr (records df').
Proof.
  unfold iloc. destruct (take_rows (records df) indices) as [e | rs]; [discriminate |].
  intros H. injection H as <-. split; reflexivity.
Qed.

(** The permutation drawn for [n] rows shuffles the positions [0 .. n-1]. *)
Hypothesis permutation_shuffles :
  forall seed n, Permutation (RandomState_permutation seed n) (seq 0 n).

Lemma permutation_length seed n : length (RandomState_permutation seed n) = n.
Proof.
  rewrite (Permutation_length (permutation_shuffles seed n)). apply length_seq.
Qed.

Lemma permutation_in_range seed n :
  Forall (fun i => (i < n)%nat) (RandomState_permutation seed n).
Proof.
  apply List.Forall_forall. intros i Hi.
  apply (Permutation_in _ (permutation_shuffles seed n)) in Hi.
  apply in_seq in Hi. lia.
Qed.

(** What a split that returns has done: the first [n_test] positions of
    the permutation went to the test part, all others to the train part. *)
Lemma train_test_split_inv df test_size seed train test :
  train_test_split df test_size seed = inr (train, test) ->
  exists n_train n_test : Z,
    validate_shuffle_split (Z.of_nat (n_samples df)) test_size None quarter
      = inr (n_train, n_test) /\
    0 < n_test /\ 0 < n_train /\ n_train + n_test = Z.of_nat (n_samples df) /\
    iloc df (drop (Z.to_nat n_test) (RandomState_permutation seed (n_samples df))) = inr train /\
    iloc df (take (Z.to_nat n_test) (RandomState_permutation seed (n_samples df))) = inr test.
Proof.
  unfold train_test_split. cbv zeta.
  destruct (validate_shuffle_split _ test_size None quarter) as [e | [a b]] eqn:E1;
    [discriminate |].
  destruct (validate_shuffle_split _ (PyInt b) (Some a) tenth) as [e | [a' b']] eqn:E2;
    [discriminate |].
  apply validate_first in E1 as Hab. destruct Hab as [Hab Ha0].
  apply validate_second in E2 as (-> & -> & Hb & Ha & Hsum).
  rewrite (take_ge (drop _ _)) by (rewrite length_drop, permutation_length; lia).
  destruct (iloc df (drop _ _)) as [e | tr] eqn:Etr; [discriminate |].
  destruct (iloc df (take _ _)) as [e | te] eqn:Ete; [discriminate |].
  intros H. injection H as <- <-.
  exists a, b. repeat split; try assumption; lia.
Qed.

(** The split returns whenever both parts get at least one row. *)
Lemma train_test_split_returns df test_size seed n_train n_test :
  validate_shuffle_split (Z.of_nat (n_samples df)) test_size None quarter
    = inr (n_train, n_test) ->
  0 < n_test < Z.of_nat (n_samples df) ->
  exists train test, train_test_split df test_size seed = inr (train, test).
Proof.
  intros E1 Hb. unfold train_test_split. cbv zeta. rewrite E1.
  apply validate_first in E1 as [-> _].
  rewrite validate_again by lia.
  assert (Hrange : forall indices,
    Forall (fun i => (i < n_samples df)%nat) indices -> exists df', iloc df indices = inr df').
  { intros indices Hi. unfold iloc.
    destruct (take_rows_returns (records df) indices Hi) as [rs ->]. eexists. reflexivity. }
  pose proof (permutation_in_range seed (n_samples df)) as Hp.
  destruct (Hrange (take (Z.to_nat (Z.of_nat (n_samples df) - n_test))
                      (drop (Z.to_nat n_test) (RandomState_permutation seed (n_samples df)))))
    as [tr ->]; [apply Forall_take, Forall_drop, Hp |].
  destruct (Hrange (take (Z.to_nat n_test) (RandomState_permutation seed (n_samples df))))
    as [te ->]; [apply Forall_take, Hp |].
  exists tr, te. reflexivity.
Qed.

(** The two parts of a split that returns take their rows at a
    permutation of all positions. *)
Lemma train_test_split_positions df test_size seed train test :
  train_test_split df test_size seed = inr (train, test) ->
  exists ind_train ind_test,
    iloc df ind_train = inr train /\ iloc df ind_test = inr test /\
    Permutation (ind_train ++ ind_test)%list (seq 0 (n_samples df)) /\
    Z.of_nat (length ind_test) + Z.of_nat (length ind_train) = Z.of_nat (n_samples df) /\
    validate_shuffle_split (Z.of_nat (n_samples df)) test_size None quarter
      = inr (Z.of_nat (length ind_train), Z.of_nat (length ind_test)).
Proof.
  intros H. apply train_test_split_inv in H as (a & b & Hv & Hb & Ha & Hsum & Htr & Hte).
  exists (drop (Z.to_nat b) (RandomState_permutation seed (n_samples df))),
         (take (Z.to_nat b) (RandomState_permutation seed (n_samples df))).
  split; [exact Htr |]. split; [exact Hte |].
  rewrite length_take, length_drop, permutation_length.
  split.
  - rewrite Permutation_app_comm, take_drop. apply permutation_shuffles.
  - split; [lia |].
    replace (Z.of_nat (n_samples df - Z.to_nat b)) with a by lia.
    replace (Z.of_nat (Z.to_nat b `min` n_samples df)) with b by lia.
    exact Hv.
Qed.

(** ** The pipeline, case by case *)

Lemma ingest_unfold w :
  ingest w =
    match load_params params_yaml w with
    | (w1, inl e) => (w1, inl e)
    | (w1, inr params) =>
        match getitem params "data_ingestion" with
        | inl e => (w1, inl e)
        | inr section =>
            match getitem section "test_size" with
            | inl e => (w1, inl e)
            | inr test_size =>
                match load_data data_url w1 with
                | (w2, inl e) => (w2, inl e)
                | (w2, inr df) =>
                    match preprocess_data df w2 with
                    | (w3, inl e) => (w3, inl e)
                    | (w3, inr final_df) =>
                        match train_test_split final_df test_size 2 with
                        | inl e => (w3, inl e)
                        | inr split => save_data (fst split) (snd split) ["data"] w3
                        end
                    end
                end
            end
        end
    end.
Proof.
  unfold ingest, bind, lift. fold params_yaml.
  destruct (load_params params_yaml w) as [w1 [e | params]]; [reflexivity |].
  destruct (getitem params "data_ingestion") as [e | section]; [reflexivity |].
  destruct (getitem section "test_size") as [e | test_size]; [reflexivity |].
  destruct (load_data data_url w1) as [w2 [e | df]]; [reflexivity |].
  destruct (preprocess_data df w2) as [w3 [e | final_df]]; [reflexivity |].
  destruct (train_test_split final_df test_size 2) as [e | split]; reflexivity.
Qed.

Lemma main_unfold w :
  main w =
    match ingest w with
    | (w1, inl e) => (reported e w1, inr tt)
    | (w1, inr tt) => (w1, inr tt)
    end.
Proof.
  unfold main, try_except, bind, logger_error, emit, print, reported.
  destruct (ingest w) as [w1 [e | []]]; reflexivity.
Qed.

Lemma getitem_error o k e :
  getitem o k = inl e -> e = KeyError [k] \/ exists t, e = TypeError t.
Proof.
  unfold getitem. destruct o; try (intros H; injection H as <-; right; eexists; reflexivity).
  destruct (dict_get d k); [discriminate |]. intros H. injection H as <-. left. reflexivity.
Qed.

Lemma has_test_size_getitem params :
  has_test_size params = true <->
  exists section test_size,
    getitem params "data_ingestion" = inr section /\
    getitem section "test_size" = inr test_size.
Proof.
  unfold has_test_size, getitem. split.
  - destruct params; try discriminate.
    destruct (dict_get d "data_ingestion") as [[] |]; try discriminate.
    destruct (dict_get d0 "test_size") as [v |] eqn:E; [| discriminate].
    intros _. exists (PyDict d0), v. rewrite E. split; reflexivity.
  - intros (section & ts & H1 & H2).
    destruct params; try discriminate.
    destruct (dict_get d "data_ingestion") as [s |]; [| discriminate].
    injection H1 as ->. destruct section; try discriminate.
    destruct (dict_get d0 "test_size"); [reflexivity | discriminate].
Qed.

#[local] Hint Extern 1 (In _ _) => simpl; tauto : frame.

(** Frame conditions of the stages follow from those of the primitives. *)
Ltac frame :=
  unfold load_params, load_data, preprocess_data, save_data, logger_debug, logger_error;
  cbv zeta; auto 30 with frame.

Lemma ingest_stdout : preserves same_stdout ingest.
Proof. unfold ingest. frame. Qed.

Lemma ingest_stderr : preserves stderr_grows ingest.
Proof. unfold ingest. frame. Qed.

Lemma ingest_env : preserves same_env ingest.
Proof. unfold ingest. frame. Qed.

Lemma ingest_files : preserves (same_files_but [LOG_FILE; train_csv; test_csv]) ingest.
Proof. unfold ingest. frame. Qed.

Lemma main_returns w : snd (main w) = inr tt.
Proof. rewrite main_unfold. destruct (ingest w) as [w1 [e | []]]; reflexivity. Qed.

(** C6. Whatever exception [e] a stage raises, [main] catches it: the
    stages print nothing, [main] logs one record at error level with the
    message of [e], prints one line [Error: <message>], and returns
    normally, so that the process ends with status 0. *)
Theorem main_catches_every_exception (w w1 : World) (e : exn) :
  ingest w = (w1, inl e) ->
  snd (main w) = inr tt /\
  exit_status (snd (main w)) = 0 /\
  fst (main w) = reported e w1 /\
  stdout (fst (main w)) = (stdout w ++ ["Error: " +:+ py_str e])%list /\
  exists lines,
    stderr (fst (main w)) =
      (stderr w ++ lines ++
       [fmt (clock w1) ERROR ("Failed to complete the data ingestion process: " +:+ py_str e)])%list.
Proof.
  intros Hi. pose proof (ingest_stdout w) as Hout. pose proof (ingest_stderr w) as [lines Herr].
  rewrite main_unfold. rewrite Hi in *. cbn [fst snd] in *.
  repeat split.
  - unfold reported, printed, logged. cbn [stdout]. rewrite Hout. reflexivity.
  - exists lines. unfold reported, printed, logged. cbn [stderr]. rewrite Herr.
    symmetry. apply app_assoc.
Qed.

Lemma logged_files_other lv msg w p :
  p <> LOG_FILE -> files (logged lv msg w) !! p = files w !! p.
Proof. intros Hp. unfold logged. cbn [files]. apply lookup_insert_ne. congruence. Qed.

Lemma reported_files_other e w p :
  p <> LOG_FILE -> files (reported e w) !! p = files w !! p.
Proof. intros Hp. unfold reported, printed. cbn [files]. apply logged_files_other, Hp. Qed.

(** C7. When [params.yaml] does not parse as YAML the run fails in
    [load_params]: nothing is fetched, no directory is made, no file but
    the log changes (so no output file appears), and all that is left are
    two error records and the line printed by [main]. *)
Theorem malformed_yaml_stops_before_fetch (w : World) (content detail : string) :
  faults w (SysOpen params_yaml) = None ->
  files w !! params_yaml = Some content ->
  yaml_safe_load content = inl (YAMLError detail) ->
  ingest w = (logged ERROR ("YAML error: " +:+ py_str (YAMLError detail)) w,
              inl (YAMLError detail)) /\
  main w = (reported (YAMLError detail)
              (logged ERROR ("YAML error: " +:+ py_str (YAMLError detail)) w), inr tt) /\
  requests (fst (main w)) = requests w /\
  dirs (fst (main w)) = dirs w /\
  (forall p, p <> LOG_FILE -> files (fst (main w)) !! p = files w !! p) /\
  files (fst (main w)) !! train_csv = files w !! train_csv /\
  files (fst (main w)) !! test_csv = files w !! test_csv /\
  stderr (fst (main w)) =
    (stderr w ++
     [fmt (clock w) ERROR ("YAML error: " +:+ py_str (YAMLError detail));
      fmt (S (clock w)) ERROR
        ("Failed to complete the data ingestion process: " +:+ py_str (YAMLError detail))])%list.
Proof.
  intros Hfault Hfile Hyaml.
  assert (Hi : ingest w = (logged ERROR ("YAML error: " +:+ py_str (YAMLError detail)) w,
                           inl (YAMLError detail))).
  { rewrite ingest_unfold, load_params_spec, Hfault, Hfile, Hyaml. reflexivity. }
  assert (Hfiles : forall p, p <> LOG_FILE ->
            files (reported (YAMLError detail)
                     (logged ERROR ("YAML error: " +:+ py_str (YAMLError detail)) w)) !! p
            = files w !! p).
  { intros p Hp. rewrite reported_files_other, logged_files_other by exact Hp. reflexivity. }
  split; [exact Hi |]. rewrite main_unfold, Hi. cbn [fst].
  split; [reflexivity |]. split; [reflexivity |]. split; [reflexivity |].
  split; [exact Hfiles |].
  split; [apply Hfiles; discriminate |]. split; [apply Hfiles; discriminate |].
  unfold reported, printed, logged. cbn [stderr clock].
  rewrite <- app_assoc. reflexivity.
Qed.

(** C9. When the parsed configuration has no [test_size] under
    [data_ingestion] (an empty file parses to [None]), the lookup in [main]
    raises [KeyError] or [TypeError] right after the configuration was
    loaded; [main] handles it like any other failure: nothing is fetched,
    the error is logged, [Error: <message>] is printed and [main] returns
    normally. *)
Theorem missing_test_size_is_reported (w : World) (content : string) (params : pyobj) :
  faults w (SysOpen params_yaml) = None ->
  files w !! params_yaml = Some content ->
  yaml_safe_load content = inr params ->
  has_test_size params = false ->
  exists e,
    (e = KeyError ["data_ingestion"] \/ e = KeyError ["test_size"] \/
     exists t, e = TypeError t) /\
    (params = PyNone -> e = TypeError "NoneType") /\
    ingest w = (logged DEBUG "Parameters retrieved from params.yaml" w, inl e) /\
    main w = (reported e (logged DEBUG "Parameters retrieved from params.yaml" w), inr tt) /\
    requests (fst (main w)) = requests w /\
    stdout (fst (main w)) = (stdout w ++ ["Error: " +:+ py_str e])%list /\
    stderr (fst (main w)) =
      (stderr w ++
       [fmt (clock w) DEBUG "Parameters retrieved from params.yaml";
        fmt (S (clock w)) ERROR
          ("Failed to complete the data ingestion process: " +:+ py_str e)])%list.
Proof.
  intros Hfault Hfile Hyaml Hlacks.
  assert (Hi : exists e,
    (e = KeyError ["data_ingestion"] \/ e = KeyError ["test_size"] \/
     exists t, e = TypeError t) /\
    (params = PyNone -> e = TypeError "NoneType") /\
    ingest w = (logged DEBUG "Parameters retrieved from params.yaml" w, inl e)).
  { rewrite ingest_unfold, load_params_spec, Hfault, Hfile, Hyaml.
    change (path_str params_yaml) with "params.yaml".
    change ("Parameters retrieved from " +:+ "params.yaml")
      with "Parameters retrieved from params.yaml".
    destruct (getitem params "data_ingestion") as [e | section] eqn:E1.
    - exists e. split; [| split; [| reflexivity]].
      + apply getitem_error in E1 as [-> | Ht]; [left; reflexivity | right; right; exact Ht].
      + intros ->. simpl in E1. congruence.
    - destruct (getitem section "test_size") as [e | test_size] eqn:E2.
      + exists e. split; [| split; [| reflexivity]].
        * apply getitem_error in E2 as [-> | Ht];
            [right; left; reflexivity | right; right; exact Ht].
        * intros ->. discriminate.
      + exfalso. apply not_true_iff_false in Hlacks. apply Hlacks.
        apply has_test_size_getitem. exists section, test_size. split; assumption. }
  destruct Hi as (e & Hkind & Hnone & Hi). exists e.
  split; [exact Hkind |]. split; [exact Hnone |]. split; [exact Hi |].
  rewrite main_unfold, Hi. cbn [fst].
  split; [reflexivity |]. split; [reflexivity |]. split; [reflexivity |].
  unfold reported, printed, logged. cbn [stderr clock].
  rewrite <- app_assoc. reflexivity.
Qed.

(** ** Normalization *)

Lemma filter_placeholders cols :
  List.filter (fun c => negb (has_label placeholders c)) cols =
  List.filter (fun c => negb (is_placeholder c)) cols.
Proof.
  apply filter_ext. intros c. rewrite has_label_placeholders. reflexivity.
Qed.

Lemma map_placeholders cols :
  map (fun c => negb (has_label placeholders c)) cols =
  map (fun c => negb (is_placeholder c)) cols.
Proof.
  apply map_ext. intros c. rewrite has_label_placeholders. reflexivity.
Qed.

Lemma preprocess_data_inr df w :
  (forall c, In c placeholders -> In c (columns df)) ->
  preprocess_data df w = (logged DEBUG "Data preprocessing completed" w, inr (normalized df)).
Proof.
  intros Hall. rewrite preprocess_data_spec, (drop_columns_inr _ _ Hall).
  unfold rename_columns, normalized. cbn [columns records].
  rewrite filter_placeholders, map_placeholders.
  do 3 f_equal. apply map_ext, mapper_get_new_label.
Qed.

Lemma preprocess_data_inl df w :
  (exists c, In c placeholders /\ ~ In c (columns df)) ->
  exists missing,
    missing <> [] /\
    (forall c, In c missing <-> In c placeholders /\ ~ In c (columns df)) /\
    preprocess_data df w =
      (logged ERROR ("Missing column in the dataframe: " +:+ py_str (KeyError missing)) w,
       inl (KeyError missing)).
Proof.
  intros Hex. destruct (drop_columns_inl placeholders df Hex) as (missing & Hd & Hne & Hspec).
  exists missing. split; [exact Hne |]. split; [exact Hspec |].
  rewrite preprocess_data_spec, Hd. reflexivity.
Qed.

Lemma normalized_n_samples df : n_samples (normalized df) = n_samples df.
Proof. unfold n_samples, normalized. cbn [records]. apply length_map. Qed.

Lemma new_label_not_placeholder c : is_placeholder c = false -> is_placeholder (new_label c) = false.
Proof.
  intros Hc. unfold new_label.
  destruct (String.eqb c "v1"); [reflexivity |].
  destruct (String.eqb c "v2"); [reflexivity | exact Hc].
Qed.

(** C5. On a frame that has the five columns, [preprocess_data] returns
    a frame whose columns are the original ones without [Unnamed: 2],
    [Unnamed: 3] and [Unnamed: 4], in their order, with [v1] called [target]
    and [v2] called [text] and every other name as it was; the rows keep their
    order and index labels, and every cell of a retained column is the cell
    the input had in that row and column. *)
Theorem preprocess_data_normalizes (df : DataFrame) (w : World) :
  In "Unnamed: 2" (columns df) -> In "Unnamed: 3" (columns df) ->
  In "Unnamed: 4" (columns df) -> In "v1" (columns df) -> In "v2" (columns df) ->
  exists df',
    preprocess_data df w = (logged DEBUG "Data preprocessing completed" w, inr df') /\
    columns df' = map new_label (List.filter (fun c => negb (is_placeholder c)) (columns df)) /\
    (forall c, In c (columns df') -> is_placeholder c = false) /\
    In "target" (columns df') /\ In "text" (columns df') /\
    map fst (records df') = map fst (records df) /\
    forall i j c, columns df !! j = Some c -> is_placeholder c = false ->
      columns df' !! kept_before (columns df) j = Some (new_label c) /\
      cell df' i (kept_before (columns df) j) = cell df i j.
Proof.
  intros H2 H3 H4 Hv1 Hv2. exists (normalized df).
  split.
  { apply preprocess_data_inr. intros c [<- | [<- | [<- | []]]]; assumption. }
  assert (Hkeep : forall c, In c (columns df) -> is_placeholder c = false ->
                            In (new_label c) (columns (normalized df))).
  { intros c Hin Hc. unfold normalized. cbn [columns].
    apply in_map, filter_In. split; [exact Hin | rewrite Hc; reflexivity]. }
  split; [reflexivity |]. split; [| split; [| split; [| split]]].
  - unfold normalized. cbn [columns]. intros c Hc.
    apply in_map_iff in Hc as (c0 & <- & Hc0). apply filter_In in Hc0 as [_ Hc0].
    apply new_label_not_placeholder. apply negb_true_iff, Hc0.
  - apply (Hkeep "v1" Hv1). reflexivity.
  - apply (Hkeep "v2" Hv2). reflexivity.
  - unfold normalized. cbn [records]. rewrite map_map. reflexivity.
  - intros i j c Hj Hc. unfold kept_before, normalized, cell. cbn [columns records].
    assert (Hkept : negb (is_placeholder c) = true) by (rewrite Hc; reflexivity).
    split.
    + pose proof (select_map_lookup (fun c => negb (is_placeholder c))
                    (columns df) (columns df) j c Hj Hkept) as Hs.
      rewrite select_map_self in Hs.
      change (map new_label ?l) with (new_label <$> l).
      rewrite list_lookup_fmap, Hs, Hj. reflexivity.
    + change (map ?f (records df)) with (f <$> records df).
      rewrite list_lookup_fmap.
      destruct (records df !! i) as [r |]; [| reflexivity].
      cbn [fmap option_fmap option_map snd].
      apply (select_map_lookup _ _ _ _ _ Hj Hkept).
Qed.

Lemma placeholders_present_or_missing df :
  (forall c, In c placeholders -> In c (columns df)) \/
  (exists c, In c placeholders /\ ~ In c (columns df)).
Proof.
  destruct (List.Forall_Exists_dec (fun c => In c (columns df))
              (fun c => in_dec string_dec c (columns df)) placeholders) as [Hall | Hex].
  - left. apply List.Forall_forall, Hall.
  - right. apply List.Exists_exists in Hex. exact Hex.
Qed.

(** C8. [preprocess_data] returns exactly when the three placeholder
    columns are there: whether [v1] or [v2] is a column plays no part, since
    [rename] skips the keys it does not find; when it fails, it fails with the
    [KeyError] of [drop], which names placeholder columns only. *)
Theorem preprocess_data_needs_only_placeholders (df : DataFrame) (w : World) :
  ((exists df', snd (preprocess_data df w) = inr df') <->
   (In "Unnamed: 2" (columns df) /\ In "Unnamed: 3" (columns df) /\
    In "Unnamed: 4" (columns df))) /\
  (forall e, snd (preprocess_data df w) = inl e ->
     exists missing, e = KeyError missing /\
       forall c, In c missing -> In c placeholders /\ ~ In c (columns df)).
Proof.
  split; [split |].
  - intros [df' Hok]. rewrite preprocess_data_spec in Hok.
    destruct (drop_columns placeholders df) as [e | df0] eqn:E; [discriminate |].
    pose proof (drop_columns_inv _ _ _ E) as Hall.
    repeat split; apply Hall; simpl; tauto.
  - intros (H2 & H3 & H4). exists (normalized df).
    rewrite preprocess_data_inr; [reflexivity |].
    intros c [<- | [<- | [<- | []]]]; assumption.
  - intros e He.
    destruct (placeholders_present_or_missing df) as [Hall | Hex].
    + rewrite (preprocess_data_inr df w Hall) in He. discriminate.
    + destruct (preprocess_data_inl df w Hex) as (missing & _ & Hspec & Hrun).
      rewrite Hrun in He. injection He as <-. exists missing. split; [reflexivity |].
      intros c Hc. apply Hspec, Hc.
Qed.

Lemma load_params_failed_files_other params_path e w p :
  p <> LOG_FILE -> files (load_params_failed params_path e w) !! p = files w !! p.
Proof.
  intros Hp. unfold load_params_failed.
  destruct e; try reflexivity; apply logged_files_other, Hp.
Qed.

Lemma load_params_failed_dirs params_path e w :
  dirs (load_params_failed params_path e w) = dirs w.
Proof. unfold load_params_failed. destruct e; reflexivity. Qed.

Lemma load_params_failed_remote params_path e w :
  remote (load_params_failed params_path e w) = remote w.
Proof. unfold load_params_failed. destruct e; reflexivity. Qed.

(** A run whose fetched table lacks a placeholder column never reaches
    [save_data]. *)
Lemma ingest_missing_placeholder df w :
  remote w data_url = inr df ->
  (exists c, In c placeholders /\ ~ In c (columns df)) ->
  exists e w1,
    ingest w = (w1, inl e) /\ dirs w1 = dirs w /\
    forall p, p <> LOG_FILE -> files w1 !! p = files w !! p.
Proof.
  intros Hremote Hex. rewrite ingest_unfold, load_params_spec.
  destruct (faults w (SysOpen params_yaml)) as [why |].
  { eexists _, _. split; [reflexivity |]. split; reflexivity. }
  destruct (files w !! params_yaml) as [content |].
  2: { destruct (is_dir w params_yaml).
       - eexists _, _. split; [reflexivity |]. split; reflexivity.
       - eexists _, _. split; [reflexivity |]. split; [reflexivity |].
         intros p Hp. apply logged_files_other, Hp. }
  destruct (yaml_safe_load content) as [e | params].
  { eexists _, _. split; [reflexivity |].
    split; [apply load_params_failed_dirs |].
    intros p Hp. apply load_params_failed_files_other, Hp. }
  destruct (getitem params "data_ingestion") as [e | section].
  { eexists _, _. split; [reflexivity |]. split; [reflexivity |].
    intros p Hp. apply logged_files_other, Hp. }
  destruct (getitem section "test_size") as [e | test_size].
  { eexists _, _. split; [reflexivity |]. split; [reflexivity |].
    intros p Hp. apply logged_files_other, Hp. }
  rewrite load_data_spec. unfold logged at 1. cbn [remote]. rewrite Hremote.
  destruct (preprocess_data_inl df
              (logged DEBUG ("Data loaded from " +:+ data_url)
                 (requested data_url
                    (logged DEBUG ("Parameters retrieved from " +:+ path_str params_yaml) w)))
              Hex) as (missing & _ & _ & ->).
  eexists _, _. split; [reflexivity |]. split; [reflexivity |].
  intros p Hp. rewrite !logged_files_other by exact Hp. unfold requested. cbn [files].
  apply logged_files_other, Hp.
Qed.

(** C1, as the code has it. When one of [Unnamed: 2], [Unnamed: 3],
    [Unnamed: 4] is no column of the frame, [preprocess_data] logs an error
    and raises the [KeyError] of [drop], which lists the placeholder columns
    that are missing; a run of [main] that fetches such a frame fails, makes
    no directory and changes no file but the log, so it writes neither
    [train.csv] nor [test.csv]. *)
Theorem missing_placeholder_fails (df : DataFrame) (w w0 : World) :
  (exists c, In c placeholders /\ ~ In c (columns df)) ->
  (exists missing,
     missing <> [] /\
     (forall c, In c missing <-> In c placeholders /\ ~ In c (columns df)) /\
     preprocess_data df w =
       (logged ERROR ("Missing column in the dataframe: " +:+ py_str (KeyError missing)) w,
        inl (KeyError missing))) /\
  (remote w0 data_url = inr df ->
     (exists e, snd (ingest w0) = inl e) /\
     dirs (fst (main w0)) = dirs w0 /\
     (forall p, p <> LOG_FILE -> files (fst (main w0)) !! p = files w0 !! p) /\
     files (fst (main w0)) !! train_csv = files w0 !! train_csv /\
     files (fst (main w0)) !! test_csv = files w0 !! test_csv).
Proof.
  intros Hex. split; [apply preprocess_data_inl, Hex |].
  intros Hremote.
  destruct (ingest_missing_placeholder df w0 Hremote Hex) as (e & w1 & Hi & Hd & Hf).
  assert (Hfiles : forall p, p <> LOG_FILE -> files (fst (main w0)) !! p = files w0 !! p).
  { intros p Hp. rewrite main_unfold, Hi. cbn [fst].
    rewrite reported_files_other by exact Hp. apply Hf, Hp. }
  split; [exists e; rewrite Hi; reflexivity |].
  split; [rewrite main_unfold, Hi; exact Hd |].
  split; [exact Hfiles |].
  split; apply Hfiles; discriminate.
Qed.

(** ** Runs that reach the end *)

Lemma ingest_inr w w' :
  ingest w = (w', inr tt) -> exists t, explains t w w'.
Proof.
  rewrite ingest_unfold, load_params_spec.
  destruct (faults w (SysOpen params_yaml)); [discriminate |].
  destruct (files w !! params_yaml) as [content |] eqn:Hfile;
    [| destruct (is_dir w params_yaml); discriminate].
  destruct (yaml_safe_load content) as [e | params] eqn:Hyaml; [discriminate |].
  destruct (getitem params "data_ingestion") as [e | section] eqn:Hs; [discriminate |].
  destruct (getitem section "test_size") as [e | test_size] eqn:Ht; [discriminate |].
  rewrite load_data_spec. unfold logged at 1. cbn [remote].
  destruct (remote w data_url) as [e | df] eqn:Hremote; [discriminate |].
  rewrite preprocess_data_spec.
  destruct (drop_columns placeholders df) as [e | df0] eqn:Hdrop; [discriminate |].
  pose proof (drop_columns_inv _ _ _ Hdrop) as Hall.
  rewrite (drop_columns_inr _ _ Hall) in Hdrop. injection Hdrop as <-.
  match goal with
  | |- context [train_test_split ?d test_size 2] =>
      assert (Hnorm : d = normalized df)
  end.
  { unfold rename_columns, normalized. cbn [columns records].
    rewrite filter_placeholders, map_placeholders.
    f_equal. apply map_ext, mapper_get_new_label. }
  rewrite Hnorm.
  destruct (train_test_split (normalized df) test_size 2) as [e | [train test]] eqn:Hsplit;
    [discriminate |].
  cbn [fst snd]. intros Hsave. apply save_data_inr in Hsave as [Htr Hte].
  exists (mkTrace content params section test_size df train test).
  unfold explains. cbn [t_content t_params t_section t_test_size t_raw t_train t_test].
  repeat split; assumption.
Qed.

Lemma explains_deterministic t1 t2 w1 w2 w1' w2' :
  files w1 !! params_yaml = files w2 !! params_yaml ->
  remote w1 data_url = remote w2 data_url ->
  explains t1 w1 w1' -> explains t2 w2 w2' ->
  t_train t1 = t_train t2 /\ t_test t1 = t_test t2.
Proof.
  intros Hfiles Hremote (Hc1 & Hy1 & Hs1 & Ht1 & Hr1 & _ & Hsp1 & _)
         (Hc2 & Hy2 & Hs2 & Ht2 & Hr2 & _ & Hsp2 & _).
  assert (t_content t1 = t_content t2) as Ec by congruence.
  assert (t_params t1 = t_params t2) as Ep by congruence.
  assert (t_section t1 = t_section t2) as Es by congruence.
  assert (t_test_size t1 = t_test_size t2) as Et by congruence.
  assert (t_raw t1 = t_raw t2) as Er by congruence.
  rewrite Er, Et, Hsp2 in Hsp1. injection Hsp1 as <- <-. split; reflexivity.
Qed.

(** C4. Two runs that read the same [params.yaml] and fetch the same
    table, and both reach the end, leave the same [train.csv] and the same
    [test.csv], whatever else differs between the two worlds (other files,
    earlier outputs, the log, the clock). *)
Theorem runs_are_reproducible (w1 w2 : World) :
  files w1 !! params_yaml = files w2 !! params_yaml ->
  remote w1 data_url = remote w2 data_url ->
  snd (ingest w1) = inr tt ->
  snd (ingest w2) = inr tt ->
  exists train_text test_text,
    files (fst (main w1)) !! train_csv = Some train_text /\
    files (fst (main w2)) !! train_csv = Some train_text /\
    files (fst (main w1)) !! test_csv = Some test_text /\
    files (fst (main w2)) !! test_csv = Some test_text.
Proof.
  intros Hfiles Hremote H1 H2. rewrite !main_unfold.
  destruct (ingest w1) as [w1' [e | []]] eqn:E1; [discriminate |].
  destruct (ingest w2) as [w2' [e | []]] eqn:E2; [discriminate |].
  cbn [fst].
  apply ingest_inr in E1 as [t1 Ht1]. apply ingest_inr in E2 as [t2 Ht2].
  destruct (explains_deterministic _ _ _ _ _ _ Hfiles Hremote Ht1 Ht2) as [Etr Ete].
  destruct Ht1 as (_ & _ & _ & _ & _ & _ & _ & Htr1 & Hte1).
  destruct Ht2 as (_ & _ & _ & _ & _ & _ & _ & Htr2 & Hte2).
  exists (to_csv (t_train t1)), (to_csv (t_test t1)).
  rewrite Htr1, Hte1, Htr2, Hte2, Etr, Ete. repeat split; reflexivity.
Qed.

Lemma writable_logged lv msg w : writable ["data"] w -> writable ["data"] (logged lv msg w).
Proof.
  intros (Hm & Ht & He & Hf & Hd1 & Hd2). unfold writable.
  split; [exact Hm |]. split; [exact Ht |]. split; [exact He |].
  split; [| split; assumption].
  etransitivity; [| exact Hf].
  cbn [with_parents joinpath app map existsb]. unfold is_file.
  rewrite (logged_files_other lv msg w ["data"]) by discriminate.
  rewrite (logged_files_other lv msg w ["data"; "raw"]) by discriminate.
  reflexivity.
Qed.

Lemma writable_requested root url w : writable root w -> writable root (requested url w).
Proof. intros H. exact H. Qed.

(** A run reaches the end when the configuration can be read and has a
    test size, the table arrives with its placeholder columns, the split
    returns and nothing stops the writes. *)
Lemma ingest_returns w content params section test_size df train test :
  faults w (SysOpen params_yaml) = None ->
  files w !! params_yaml = Some content ->
  yaml_safe_load content = inr params ->
  getitem params "data_ingestion" = inr section ->
  getitem section "test_size" = inr test_size ->
  remote w data_url = inr df ->
  (forall c, In c placeholders -> In c (columns df)) ->
  train_test_split (normalized df) test_size 2 = inr (train, test) ->
  writable ["data"] w ->
  exists w',
    ingest w = (w', inr tt) /\
    files w' !! train_csv = Some (to_csv train) /\
    files w' !! test_csv = Some (to_csv test).
Proof.
  intros Hfault Hfile Hyaml Hs Ht Hremote Hall Hsplit Hw.
  rewrite ingest_unfold, load_params_spec, Hfault, Hfile, Hyaml, Hs, Ht, load_data_spec.
  unfold logged at 1. cbn [remote]. rewrite Hremote.
  rewrite (preprocess_data_inr _ _ Hall), Hsplit. cbn [fst snd].
  match goal with
  | |- context [save_data train test ["data"] ?w3] =>
      destruct (save_data_returns train test ["data"] w3) as [w' Hsave]
  end.
  { apply writable_logged, writable_logged, writable_requested, writable_logged, Hw. }
  exists w'. split; [exact Hsave |]. apply save_data_inr in Hsave. exact Hsave.
Qed.

Lemma train_test_split_sizes df test_size seed train test :
  train_test_split df test_size seed = inr (train, test) ->
  (n_samples train + n_samples test = n_samples df)%nat /\
  validate_shuffle_split (Z.of_nat (n_samples df)) test_size None quarter
    = inr (Z.of_nat (n_samples train), Z.of_nat (n_samples test)).
Proof.
  intros H. apply train_test_split_positions in H
    as (ind_train & ind_test & Htr & Hte & _ & Hsum & Hv).
  apply iloc_inr in Htr as [_ Htr]. apply iloc_inr in Hte as [_ Hte].
  apply take_rows_length in Htr, Hte.
  assert (Etr : n_samples train = length ind_train) by exact Htr.
  assert (Ete : n_samples test = length ind_test) by exact Hte.
  rewrite Etr, Ete. split; [lia | exact Hv].
Qed.

Lemma validate_ten_rows :
  validate_shuffle_split 10 (PyFloat one_fifth) None quarter = inr (8, 2).
Proof. vm_compute. reflexivity. Qed.

(** ** The split as a partition *)

(** C2. When [train_test_split] (seed 2; any test size, so any fraction
    between 0 and 1) returns a train and a test part, both have the columns
    of the input, they take their rows at two lists of positions that share
    no position and together list every position once, and the rows of the
    two parts together are the rows of the input up to order; when the index
    labels of the input are pairwise different, no label is in both parts. *)
Theorem split_is_a_partition (df : DataFrame) (test_size : pyobj) (train test : DataFrame) :
  train_test_split df test_size 2 = inr (train, test) ->
  columns train = columns df /\ columns test = columns df /\
  (exists ind_train ind_test,
     iloc df ind_train = inr train /\ iloc df ind_test = inr test /\
     NoDup (ind_train ++ ind_test)%list /\
     (forall i, In i ind_train -> ~ In i ind_test) /\
     Permutation (ind_train ++ ind_test)%list (seq 0 (n_samples df))) /\
  Permutation (records train ++ records test)%list (records df) /\
  (NoDup (map fst (records df)) ->
   forall l, In l (map fst (records train)) -> ~ In l (map fst (records test))).
Proof.
  intros H. apply train_test_split_positions in H
    as (ind_train & ind_test & Htr & Hte & Hperm & _ & _).
  assert (Hnodup : NoDup (ind_train ++ ind_test)%list).
  { rewrite Hperm. apply NoDup_seq. }
  pose proof (iloc_inr _ _ _ Htr) as [Hctr Hrtr].
  pose proof (iloc_inr _ _ _ Hte) as [Hcte Hrte].
  assert (Hrows : Permutation (records train ++ records test)%list (records df)).
  { apply (take_rows_Permutation _ (ind_train ++ ind_test)%list).
    - apply take_rows_app; assumption.
    - exact Hperm. }
  split; [exact Hctr |]. split; [exact Hcte |]. split; [| split; [exact Hrows |]].
  - exists ind_train, ind_test. split; [exact Htr |]. split; [exact Hte |].
    split; [exact Hnodup |]. split; [| exact Hperm].
    apply NoDup_app in Hnodup as (_ & Hdisj & _).
    intros i Hi Hi'. apply (Hdisj i); apply list_elem_of_In; assumption.
  - intros Hlabels l Hl Hl'.
    apply (Permutation_map fst) in Hrows. rewrite map_app in Hrows.
    rewrite <- Hrows in Hlabels.
    apply NoDup_app in Hlabels as (_ & Hdisj & _).
    apply (Hdisj l); apply list_elem_of_In; assumption.
Qed.

(** ** Sizes of the two parts *)

Lemma to_csv_csv_of df :
  to_csv df = csv_of (map PyStr (columns df)) (map snd (records df)).
Proof. unfold to_csv, csv_of. cbn [map]. rewrite map_map. reflexivity. Qed.

(** C3. (1) When the split returns for a test size [f], the two parts
    have as many rows together as the input, and the test part has
    [ceil(f * n)] of them, the product taken in binary64.  (2) For a fraction
    [f] the split does return whenever that number [k] leaves at least one
    row to each part.  (3) A run whose configuration gives [test_size: 0.2]
    and whose table has 10 rows reaches the end, with 8 rows in the train part
    and 2 in the test part, taken at positions that are in one part only;
    [train.csv] then holds a header and 8 data rows and [test.csv] a header
    and 2 data rows. *)
Theorem split_sizes_follow_test_size :
  (forall df f train test,
     train_test_split df (PyFloat f) 2 = inr (train, test) ->
     (n_samples train + n_samples test = n_samples df)%nat /\
     math_ceil (PrimFloat.mul f (float_of_Z (Z.of_nat (n_samples df))))
       = inr (Z.of_nat (n_samples test))) /\
  (forall df f k,
     is_fraction f = true ->
     math_ceil (PrimFloat.mul f (float_of_Z (Z.of_nat (n_samples df)))) = inr k ->
     0 < k < Z.of_nat (n_samples df) ->
     exists train test,
       train_test_split df (PyFloat f) 2 = inr (train, test) /\
       Z.of_nat (n_samples test) = k) /\
  (forall w content params section df,
     faults w (SysOpen params_yaml) = None ->
     files w !! params_yaml = Some content ->
     yaml_safe_load content = inr params ->
     getitem params "data_ingestion" = inr section ->
     getitem section "test_size" = inr (PyFloat one_fifth) ->
     remote w data_url = inr df ->
     (forall c, In c placeholders -> In c (columns df)) ->
     n_samples df = 10%nat ->
     writable ["data"] w ->
     exists w' train test,
       main w = (w', inr tt) /\
       train_test_split (normalized df) (PyFloat one_fifth) 2 = inr (train, test) /\
       n_samples train = 8%nat /\ n_samples test = 2%nat /\
       (exists header rows,
          files w' !! train_csv = Some (csv_of header rows) /\ length rows = 8%nat) /\
       (exists header rows,
          files w' !! test_csv = Some (csv_of header rows) /\ length rows = 2%nat) /\
       (exists ind_train ind_test,
          iloc (normalized df) ind_train = inr train /\
          iloc (normalized df) ind_test = inr test /\
          forall i, In i ind_train -> ~ In i ind_test)).
Proof.
  split; [| split].
  - intros df f train test H. apply train_test_split_sizes in H as [Hsum Hv].
    split; [exact Hsum |]. apply validate_fraction_inv in Hv. exact Hv.
  - intros df f k Hf Hk Hrange.
    pose proof (validate_fraction _ f quarter k Hf Hk (proj2 Hrange)) as Hv.
    destruct (train_test_split_returns df (PyFloat f) 2 _ _ Hv Hrange) as (train & test & H).
    exists train, test. split; [exact H |].
    apply train_test_split_sizes in H as [_ Hv']. rewrite Hv in Hv'.
    injection Hv' as _ <-. reflexivity.
  - intros w content params section df Hfault Hfile Hyaml Hs Ht Hremote Hall Hn Hw.
    assert (Hv : validate_shuffle_split (Z.of_nat (n_samples (normalized df)))
                   (PyFloat one_fifth) None quarter = inr (8, 2)).
    { rewrite normalized_n_samples, Hn. exact validate_ten_rows. }
    destruct (train_test_split_returns (normalized df) (PyFloat one_fifth) 2 _ _ Hv)
      as (train & test & Hsplit).
    { rewrite normalized_n_samples, Hn. lia. }
    destruct (ingest_returns w _ _ _ _ _ _ _ Hfault Hfile Hyaml Hs Ht Hremote Hall Hsplit Hw)
      as (w' & Hi & Htr & Hte).
    pose proof (train_test_split_sizes _ _ _ _ _ Hsplit) as [_ Hsizes].
    rewrite Hv in Hsizes. injection Hsizes as Ea Eb.
    assert (Hntr : n_samples train = 8%nat) by lia.
    assert (Hnte : n_samples test = 2%nat) by lia.
    exists w', train, test.
    split; [rewrite main_unfold, Hi; reflexivity |].
    split; [exact Hsplit |]. split; [exact Hntr |]. split; [exact Hnte |].
    split; [| split].
    + eexists _, _. rewrite Htr, to_csv_csv_of. split; [reflexivity |].
      rewrite length_map. exact Hntr.
    + eexists _, _. rewrite Hte, to_csv_csv_of. split; [reflexivity |].
      rewrite length_map. exact Hnte.
    + destruct (split_is_a_partition _ _ _ _ Hsplit)
        as (_ & _ & (ind_train & ind_test & H1 & H2 & _ & Hdisj & _) & _).
      exists ind_train, ind_test. repeat split; assumption.
Qed.

(** ** What [save_data] writes *)

(** Every call of [save_data] appends one record to the log file. *)
Lemma save_data_logs train_df test_df root w :
  exists line,
    files (fst (save_data train_df test_df root w)) !! LOG_FILE =
      Some (default "" (files w !! LOG_FILE) +:+ line +:+ newline).
Proof.
  pose proof (raw_file_not_log root "train.csv") as Hl1.
  pose proof (raw_file_not_log root "test.csv") as Hl2.
  assert (Hlog : forall lv msg w1,
            files w1 !! LOG_FILE = files w !! LOG_FILE ->
            exists line, files (logged lv msg w1) !! LOG_FILE =
                           Some (default "" (files w !! LOG_FILE) +:+ line +:+ newline)).
  { intros lv msg w1 Hsame. eexists. unfold logged. cbn [files].
    rewrite lookup_insert_eq, Hsame. reflexivity. }
  rewrite save_data_spec.
  pose proof (mkdir_files [] (root // "raw") w LOG_FILE) as H1.
  destruct (mkdir (root // "raw") w) as [w1 r1]. cbn [fst] in H1.
  specialize (H1 (fun H => H)).
  pose proof (write_text_files [root // "raw" // "train.csv"] _ (to_csv train_df)
                (or_introl eq_refl) w1 LOG_FILE) as H2.
  destruct (write_text (root // "raw" // "train.csv") (to_csv train_df) w1) as [w2 r2].
  cbn [fst] in H2.
  pose proof (write_text_files [root // "raw" // "test.csv"] _ (to_csv test_df)
                (or_introl eq_refl) w2 LOG_FILE) as H3.
  destruct (write_text (root // "raw" // "test.csv") (to_csv test_df) w2) as [w3 r3].
  cbn [fst] in H3.
  assert (E2 : files w2 !! LOG_FILE = files w !! LOG_FILE).
  { rewrite H2, H1; [reflexivity |]. intros [H | []]. congruence. }
  assert (E3 : files w3 !! LOG_FILE = files w !! LOG_FILE).
  { rewrite H3, E2; [reflexivity |]. intros [H | []]. congruence. }
  destruct r1 as [e | []]; [apply Hlog, H1 |].
  destruct r2 as [e | []]; [apply Hlog, E2 |].
  destruct r3 as [e | []]; apply Hlog, E3.
Qed.

Lemma save_data_files train_df test_df root :
  preserves
    (same_files_but [LOG_FILE; root // "raw" // "train.csv"; root // "raw" // "test.csv"])
    (save_data train_df test_df root).
Proof.
  clear yaml_safe_load.
  unfold save_data, logger_debug, logger_error. cbv zeta. auto 30 with frame.
Qed.

(** C10, as the code has it. When [save_data] returns, [train.csv] and
    [test.csv] under [data_root/raw] hold exactly the two serializations,
    whatever they held before, and it does return when nothing stops the
    writes; returning or not, it leaves every other file as it was, but for
    the log file [logs/data_ingestion.log], which gets one more record. *)
Theorem save_data_replaces_outputs (train_df test_df : DataFrame) (data_root : Path)
    (w : World) :
  (forall w', save_data train_df test_df data_root w = (w', inr tt) ->
     files w' !! (data_root // "raw" // "train.csv") = Some (to_csv train_df) /\
     files w' !! (data_root // "raw" // "test.csv") = Some (to_csv test_df)) /\
  (writable data_root w ->
     exists w', save_data train_df test_df data_root w = (w', inr tt)) /\
  (forall p, p <> data_root // "raw" // "train.csv" ->
             p <> data_root // "raw" // "test.csv" ->
             p <> LOG_FILE ->
     files (fst (save_data train_df test_df data_root w)) !! p = files w !! p) /\
  (exists line,
     files (fst (save_data train_df test_df data_root w)) !! LOG_FILE =
       Some (default "" (files w !! LOG_FILE) +:+ line +:+ newline)).
Proof.
  split; [intros w'; apply save_data_inr |].
  split; [apply save_data_returns |].
  split; [| apply save_data_logs].
  intros p Htr Hte Hlog. apply (save_data_files train_df test_df data_root w).
  intros [H | [H | [H | []]]]; congruence.
Qed.

(** ** The module level *)

Lemma mkdir_inv p w w' :
  mkdir p w = (w', inr tt) ->
  faults w (SysMkdir p) = None /\
  existsb (is_file w) (with_parents p) = false /\
  w' = set_dirs (dirs w ∪ list_to_set (with_parents p)) w.
Proof.
  unfold mkdir.
  destruct (faults w (SysMkdir p)); [discriminate |].
  destruct (existsb (is_file w) (with_parents p)); [discriminate |].
  intros H. injection H as <-. repeat split.
Qed.

Lemma open_append_inv p w w' :
  open_append p w = (w', inr tt) ->
  faults w (SysOpen p) = None /\ is_dir w p = false /\ is_file w (parent p) = false /\
  (parent p = [] \/ is_dir w (parent p) = true) /\
  w' = opened p w.
Proof.
  unfold open_append.
  destruct (faults w (SysOpen p)); [discriminate |].
  destruct (is_dir w p); [discriminate |].
  destruct (is_file w (parent p)); [discriminate |].
  destruct (parent p) as [| c q].
  - intros H. injection H as <-. repeat split. left. reflexivity.
  - destruct (is_dir w (c :: q)); [| discriminate].
    intros H. injection H as <-. repeat split. right. reflexivity.
Qed.

Lemma open_append_ok p w :
  faults w (SysOpen p) = None -> is_dir w p = false -> is_file w (parent p) = false ->
  parent p = [] \/ is_dir w (parent p) = true ->
  open_append p w = (opened p w, inr tt).
Proof.
  intros Hf Hd Hp Hin. unfold open_append.
  rewrite Hf, Hd, Hp. destruct (parent p) as [| c q]; [reflexivity |].
  destruct Hin as [Hin | Hin]; [discriminate | rewrite Hin; reflexivity].
Qed.

Lemma opened_dirs p w : dirs (opened p w) = dirs w.
Proof. unfold opened. destruct (files w !! p); reflexivity. Qed.

Lemma opened_faults p w : faults (opened p w) = faults w.
Proof. unfold opened. destruct (files w !! p); reflexivity. Qed.

Lemma opened_is_file p w : is_file (opened p w) p = true.
Proof.
  unfold opened, is_file. destruct (files w !! p) eqn:E; [rewrite E; reflexivity |].
  cbn [files set_files]. rewrite lookup_insert_eq. reflexivity.
Qed.

Lemma opened_files_other p q w : q <> p -> files (opened p w) !! q = files w !! q.
Proof.
  intros Hne. unfold opened. destruct (files w !! p); [reflexivity |].
  cbn [files set_files]. apply lookup_insert_ne. congruence.
Qed.

Lemma opened_again p w : opened p (opened p w) = opened p w.
Proof.
  pose proof (opened_is_file p w) as H. unfold is_file in H.
  unfold opened at 1. destruct (files (opened p w) !! p); [reflexivity | discriminate].
Qed.

Lemma set_dirs_same w d : d = dirs w -> set_dirs d w = w.
Proof. intros ->. destruct w. reflexivity. Qed.

(** What a successful import leaves. *)
Lemma module_level_inv p p1 :
  module_level p = (p1, inr tt) ->
  faults (world p) (SysMkdir LOG_DIR) = None /\
  is_file (world p) LOG_DIR = false /\
  faults (world p) (SysOpen LOG_FILE) = None /\
  is_dir (world p) LOG_FILE = false /\
  p1 = {| world := opened LOG_FILE
                     (set_dirs (dirs (world p) ∪ list_to_set (with_parents LOG_DIR)) (world p));
          logger_level := DEBUG;
          handlers := match handlers p with
                      | [] => [ch; fh]
                      | hs => hs
                      end |}.
Proof.
  unfold module_level.
  destruct (mkdir LOG_DIR (world p)) as [w1 [e | []]] eqn:E1; [discriminate |].
  destruct (open_append LOG_FILE w1) as [w2 [e | []]] eqn:E2; [discriminate |].
  apply mkdir_inv in E1 as (Hf1 & Hb & ->).
  apply open_append_inv in E2 as (Hf2 & Hd & _ & _ & ->).
  intros H. injection H as <-.
  split; [exact Hf1 |]. split; [| split; [exact Hf2 | split; [| reflexivity]]].
  - cbn [with_parents LOG_DIR map existsb] in Hb. rewrite orb_false_r in Hb. exact Hb.
  - unfold is_dir in *. cbn [dirs set_dirs] in Hd.
    apply bool_decide_eq_false in Hd. apply bool_decide_eq_false.
    intros Hin. apply Hd. apply elem_of_union_l, Hin.
Qed.

Lemma module_level_ok p :
  faults (world p) (SysMkdir LOG_DIR) = None ->
  is_file (world p) LOG_DIR = false ->
  faults (world p) (SysOpen LOG_FILE) = None ->
  is_dir (world p) LOG_FILE = false ->
  exists p1, module_level p = (p1, inr tt).
Proof.
  intros Hf1 Hfile Hf2 Hd. unfold module_level.
  rewrite mkdir_ok; [| exact Hf1 |].
  2: { change (existsb (is_file (world p)) (with_parents LOG_DIR))
         with (is_file (world p) LOG_DIR || false)%bool.
       rewrite Hfile. reflexivity. }
  rewrite open_append_ok.
  - eexists. reflexivity.
  - exact Hf2.
  - unfold is_dir in *. cbn [dirs set_dirs].
    apply bool_decide_eq_false in Hd. apply bool_decide_eq_false.
    intros Hin. apply elem_of_union in Hin as [Hin | Hin]; [contradiction |].
    revert Hin. change LOG_FILE with (LOG_DIR // "data_ingestion.log").
    apply child_not_parent.
  - change (parent LOG_FILE) with LOG_DIR. exact Hfile.
  - right. change (parent LOG_FILE) with LOG_DIR. unfold is_dir.
    apply bool_decide_eq_true. cbn [dirs set_dirs].
    apply elem_of_union_r, elem_of_list_to_set, list_elem_of_In. left. reflexivity.
Qed.

(** X1. Importing the module again changes nothing: a second run of the
    module level in the state the first one left succeeds and leaves that
    very state, the handlers included, so no record is written twice; and a
    logger that had a handler before the import gets none from it. *)
Theorem module_level_twice (p p1 : Process) :
  module_level p = (p1, inr tt) ->
  module_level p1 = (p1, inr tt) /\
  handlers p1 <> [] /\
  (handlers p <> [] -> handlers p1 = handlers p).
Proof.
  intros H. apply module_level_inv in H as (Hf1 & Hfile & Hf2 & Hd & ->).
  set (w1 := set_dirs (dirs (world p) ∪ list_to_set (with_parents LOG_DIR)) (world p)).
  cbn [handlers].
  split; [| split; [destruct (handlers p); discriminate |]].
  2: { destruct (handlers p); [congruence | reflexivity]. }
  unfold module_level. cbn [world handlers logger_level].
  assert (Hmk : mkdir LOG_DIR (opened LOG_FILE w1) = (opened LOG_FILE w1, inr tt)).
  { rewrite mkdir_ok.
    - f_equal. apply set_dirs_same. rewrite opened_dirs. unfold w1. cbn [dirs set_dirs].
      rewrite <- (assoc_L (∪)), (idemp_L (∪)). reflexivity.
    - rewrite opened_faults. exact Hf1.
    - change (existsb (is_file (opened LOG_FILE w1)) (with_parents LOG_DIR))
        with (is_file (opened LOG_FILE w1) LOG_DIR || false)%bool.
      rewrite orb_false_r. unfold is_file.
      rewrite opened_files_other by discriminate. exact Hfile. }
  rewrite Hmk.
  assert (Hop : open_append LOG_FILE (opened LOG_FILE w1) = (opened LOG_FILE w1, inr tt)).
  { rewrite open_append_ok.
    - rewrite opened_again. reflexivity.
    - rewrite opened_faults. exact Hf2.
    - unfold is_dir in *. rewrite opened_dirs. unfold w1. cbn [dirs set_dirs].
      apply bool_decide_eq_false in Hd. apply bool_decide_eq_false.
      intros Hin. apply elem_of_union in Hin as [Hin | Hin]; [contradiction |].
      revert Hin. change LOG_FILE with (LOG_DIR // "data_ingestion.log").
      apply child_not_parent.
    - change (parent LOG_FILE) with LOG_DIR. unfold is_file.
      rewrite opened_files_other by discriminate. exact Hfile.
    - right. change (parent LOG_FILE) with LOG_DIR. unfold is_dir.
      apply bool_decide_eq_true. rewrite opened_dirs. unfold w1. cbn [dirs set_dirs].
      apply elem_of_union_r, elem_of_list_to_set, list_elem_of_In. left. reflexivity. }
  rewrite Hop. do 2 f_equal. destruct (handlers p); reflexivity.
Qed.

(** X2. After the import into a logger without handlers, a record of
    any level goes through both handlers: one line on the console, the same
    line appended to the log file; this is the [logged] the stages are
    written with. *)
Theorem fresh_logger_writes_console_and_file (p p1 : Process) (lv : level) (message : string) :
  handlers p = [] ->
  module_level p = (p1, inr tt) ->
  handlers p1 = [ch; fh] /\
  world (logger_log p1 lv message) = logged lv message (world p1) /\
  stderr (world (logger_log p1 lv message))
    = (stderr (world p1) ++ [fmt (clock (world p1)) lv message])%list /\
  files (world (logger_log p1 lv message)) !! LOG_FILE
    = Some (default "" (files (world p1) !! LOG_FILE)
            +:+ fmt (clock (world p1)) lv message +:+ newline).
Proof.
  intros Hnone H. apply module_level_inv in H as (_ & _ & _ & _ & ->).
  rewrite Hnone. cbn [handlers world].
  split; [reflexivity |].
  assert (Hlog : forall w, world (logger_log {| world := w; logger_level := DEBUG;
                                                handlers := [ch; fh] |} lv message)
                           = logged lv message w).
  { intros w. unfold logger_log. cbn [logger_level handlers world].
    destruct lv; reflexivity. }
  rewrite Hlog. split; [reflexivity |]. split; [reflexivity |].
  unfold logged. cbn [files]. apply lookup_insert_eq.
Qed.

(** X3. Run as a script, the program ends with status 0 exactly when
    the module level goes through, that is when [logs/] can be made and the
    log file opened; what [main] meets plays no part. *)
Theorem script_exit_status (w : World) :
  (snd (script w) = 0 \/ snd (script w) = 1) /\
  (snd (script w) = 0 <->
   faults w (SysMkdir LOG_DIR) = None /\ is_file w LOG_DIR = false /\
   faults w (SysOpen LOG_FILE) = None /\ is_dir w LOG_FILE = false).
Proof.
  unfold script.
  destruct (module_level (fresh_process w)) as [p [e | []]] eqn:E; cbn [snd].
  - split; [right; reflexivity |]. split; [discriminate |].
    intros (H1 & H2 & H3 & H4).
    destruct (module_level_ok (fresh_process w) H1 H2 H3 H4) as [p1 Hp1]. congruence.
  - rewrite main_returns. cbn [exit_status].
    split; [left; reflexivity |]. split; [| reflexivity].
    intros _. apply module_level_inv in E as (H1 & H2 & H3 & H4 & _).
    repeat split; assumption.
Qed.

(** ** Stages and their order *)

Lemma string_app_assoc (a b c : string) : (a +:+ b) +:+ c = a +:+ (b +:+ c).
Proof.
  induction a as [| x a IH]; [reflexivity |].
  change (String x ((a +:+ b) +:+ c) = String x (a +:+ (b +:+ c))). rewrite IH. reflexivity.
Qed.

Lemma string_app_nil_r (a : string) : a +:+ "" = a.
Proof.
  induction a as [| x a IH]; [reflexivity |].
  change (String x (a +:+ "") = String x a). rewrite IH. reflexivity.
Qed.

Lemma string_app_not_nil (a b : string) : b <> "" -> a +:+ b <> "".
Proof. destruct a; [intros H; exact H | discriminate]. Qed.

Lemma logged_remote lv msg w : remote (logged lv msg w) = remote w.
Proof. reflexivity. Qed.

Lemma logged_faults lv msg w : faults (logged lv msg w) = faults w.
Proof. reflexivity. Qed.

Lemma configured_load w ts :
  configured w ts ->
  exists params section,
    load_params params_yaml w
      = (logged DEBUG "Parameters retrieved from params.yaml" w, inr params) /\
    getitem params "data_ingestion" = inr section /\
    getitem section "test_size" = inr ts.
Proof.
  intros (content & params & section & Hf & Hfile & Hyaml & Hs & Ht).
  exists params, section. rewrite load_params_spec, Hf, Hfile, Hyaml.
  repeat split; assumption.
Qed.

Lemma configured_unique w ts ts' : configured w ts -> configured w ts' -> ts = ts'.
Proof.
  intros (c1 & p1 & s1 & _ & Hc1 & Hy1 & Hs1 & Ht1) (c2 & p2 & s2 & _ & Hc2 & Hy2 & Hs2 & Ht2).
  assert (c1 = c2) by congruence. subst c2.
  assert (p1 = p2) by congruence. subst p2.
  assert (s1 = s2) by congruence. subst s2. congruence.
Qed.

(** The run either is configured, or fails before it fetches anything
    and leaves a world that differs in its log only. *)
Lemma ingest_config_cases w :
  (exists ts, configured w ts) \/
  (exists e w1,
     ingest w = (w1, inl e) /\ dirs w1 = dirs w /\ requests w1 = requests w /\
     stdout w1 = stdout w /\
     forall p, p <> LOG_FILE -> files w1 !! p = files w !! p).
Proof.
  rewrite ingest_unfold, load_params_spec. unfold configured.
  destruct (faults w (SysOpen params_yaml)) as [why |] eqn:Hf.
  { right. eexists _, _. repeat split. }
  destruct (files w !! params_yaml) as [content |] eqn:Hfile.
  2: { right. destruct (is_dir w params_yaml).
       - eexists _, _. repeat split.
       - eexists _, _. split; [reflexivity |]. repeat split.
         intros p Hp. apply logged_files_other, Hp. }
  destruct (yaml_safe_load content) as [e | params] eqn:Hyaml.
  { right. eexists _, _. split; [reflexivity |].
    split; [apply load_params_failed_dirs |].
    split; [destruct e; reflexivity |]. split; [destruct e; reflexivity |].
    intros p Hp. apply load_params_failed_files_other, Hp. }
  destruct (getitem params "data_ingestion") as [e | section] eqn:Hs.
  { right. eexists _, _. split; [reflexivity |]. repeat split.
    intros p Hp. apply logged_files_other, Hp. }
  destruct (getitem section "test_size") as [e | test_size] eqn:Ht.
  { right. eexists _, _. split; [reflexivity |]. repeat split.
    intros p Hp. apply logged_files_other, Hp. }
  left. exists test_size, content, params, section. repeat split; assumption.
Qed.

(** A configured run fetches once; then it either reaches [save_data] in
    the world [prepared w], or fails and leaves a world that differs in its
    log and its requests only. *)
Lemma ingest_configured_cases w ts :
  configured w ts ->
  (exists df train test,
     reaches_save w ts df train test /\
     ingest w = save_data train test ["data"] (prepared w)) \/
  (exists e w1,
     ingest w = (w1, inl e) /\ dirs w1 = dirs w /\
     requests w1 = (requests w ++ [data_url])%list /\ stdout w1 = stdout w /\
     forall p, p <> LOG_FILE -> files w1 !! p = files w !! p).
Proof.
  intros Hc. destruct (configured_load w ts Hc) as (params & section & Hload & Hs & Ht).
  rewrite ingest_unfold, Hload, Hs, Ht, load_data_spec, logged_remote.
  assert (Hother : forall lv1 lv2 lv3 m1 m2 m3 p, p <> LOG_FILE ->
            files (logged lv1 m1 (logged lv2 m2 (requested data_url (logged lv3 m3 w)))) !! p
            = files w !! p).
  { intros lv1 lv2 lv3 m1 m2 m3 p Hp. rewrite !logged_files_other by exact Hp.
    unfold requested. cbn [files]. apply logged_files_other, Hp. }
  destruct (remote w data_url) as [e | df] eqn:Hremote.
  { right. eexists _, _. split; [reflexivity |]. repeat split.
    intros p Hp. rewrite logged_files_other by exact Hp. unfold requested. cbn [files].
    apply logged_files_other, Hp. }
  destruct (placeholders_present_or_missing df) as [Hall | Hex].
  2: { right.
       destruct (preprocess_data_inl df
                   (logged DEBUG ("Data loaded from " +:+ data_url)
                      (requested data_url
                         (logged DEBUG "Parameters retrieved from params.yaml" w)))
                   Hex) as (missing & _ & _ & ->).
       eexists _, _. split; [reflexivity |]. repeat split. intros p Hp. apply Hother, Hp. }
  rewrite (preprocess_data_inr _ _ Hall).
  destruct (train_test_split (normalized df) ts 2) as [e | [train test]] eqn:Hsplit.
  { right. eexists _, _. split; [reflexivity |]. repeat split. intros p Hp. apply Hother, Hp. }
  left. exists df, train, test. split; [| reflexivity].
  repeat split; assumption.
Qed.

Lemma main_world w :
  fst (main w) = match ingest w with
                 | (w1, inl e) => reported e w1
                 | (w1, inr _) => w1
                 end.
Proof. rewrite main_unfold. destruct (ingest w) as [w1 [e | []]]; reflexivity. Qed.

Lemma save_data_requests train_df test_df root :
  preserves same_requests (save_data train_df test_df root).
Proof.
  clear yaml_safe_load.
  unfold save_data, logger_debug, logger_error. cbv zeta. auto 30 with frame.
Qed.

Lemma save_data_stdout train_df test_df root :
  preserves same_stdout (save_data train_df test_df root).
Proof.
  clear yaml_safe_load.
  unfold save_data, logger_debug, logger_error. cbv zeta. auto 30 with frame.
Qed.

Lemma list_app_one_ne {A} (l : list A) (x : A) : (l ++ [x])%list <> l.
Proof.
  intros H. apply (f_equal (@length _)) in H. rewrite length_app in H. simpl in H. lia.
Qed.

(** X4. [main] asks the remote end for the table exactly when
    [params.yaml] can be read and gives a test size, and then exactly once,
    at the fixed address: a run that fails on its configuration makes no
    request, and no later stage makes a second one. *)
Theorem main_fetches_once_if_configured (w : World) :
  (requests (fst (main w)) = requests w \/
   requests (fst (main w)) = (requests w ++ [data_url])%list) /\
  (requests (fst (main w)) = (requests w ++ [data_url])%list <-> exists ts, configured w ts).
Proof.
  assert (Hreq : forall e w1, requests (reported e w1) = requests w1) by reflexivity.
  destruct (ingest_config_cases w) as [[ts Hc] | (e & w1 & Hi & _ & Hr & _)].
  - assert (H : requests (fst (main w)) = (requests w ++ [data_url])%list).
    { rewrite main_world.
      destruct (ingest_configured_cases w ts Hc)
        as [(df & train & test & _ & Hi) | (e & w1 & Hi & _ & Hr & _)].
      - pose proof (save_data_requests train test ["data"] (prepared w)) as Hs.
        rewrite <- Hi in Hs. unfold same_requests in Hs.
        destruct (ingest w) as [w1 [e | []]]; cbn [fst] in Hs |- *;
          [rewrite Hreq |]; rewrite Hs; reflexivity.
      - rewrite Hi, Hreq. exact Hr. }
    split; [right; exact H |]. split; [intros _; exists ts; exact Hc | intros _; exact H].
  - assert (H : requests (fst (main w)) = requests w).
    { rewrite main_world, Hi, Hreq. exact Hr. }
    split; [left; exact H |]. split.
    + intros H'. rewrite H in H'. symmetry in H'. apply list_app_one_ne in H'. destruct H'.
    + intros [ts Hc]. exfalso.
      destruct (ingest_configured_cases w ts Hc)
        as [(df & train & test & _ & Hi') | (e' & w1' & Hi' & _ & Hr' & _)].
      * pose proof (save_data_requests train test ["data"] (prepared w)) as Hs.
        rewrite <- Hi', Hi in Hs. unfold same_requests in Hs. cbn [fst] in Hs.
        rewrite Hr in Hs. apply (list_app_one_ne (requests w) data_url). symmetry. exact Hs.
      * rewrite Hi in Hi'. injection Hi' as -> _. rewrite Hr in Hr'.
        apply (list_app_one_ne (requests w) data_url). symmetry. exact Hr'.
Qed.

(** A run either gets as far as [save_data], or fails before it and
    leaves a world with the directories and, the log apart, the files it
    started with. *)
Lemma ingest_cases w :
  (exists ts df train test, reaches_save w ts df train test) \/
  (exists e w1,
     ingest w = (w1, inl e) /\ dirs w1 = dirs w /\
     forall p, p <> LOG_FILE -> files w1 !! p = files w !! p).
Proof.
  destruct (ingest_config_cases w) as [[ts Hc] | (e & w1 & Hi & Hd & _ & _ & Hf)].
  - destruct (ingest_configured_cases w ts Hc)
      as [(df & train & test & Hr & _) | (e & w1 & Hi & Hd & _ & _ & Hf)].
    + left. exists ts, df, train, test. exact Hr.
    + right. exists e, w1. repeat split; assumption.
  - right. exists e, w1. repeat split; assumption.
Qed.

(** X5. Only [save_data] writes: unless every stage before it goes
    through (configuration, fetch, normalization, split), a run of [main]
    makes no directory and changes no file but the log. *)
Theorem only_save_data_writes (w : World) :
  (exists ts df train test, reaches_save w ts df train test) \/
  (dirs (fst (main w)) = dirs w /\
   forall p, p <> LOG_FILE -> files (fst (main w)) !! p = files w !! p).
Proof.
  destruct (ingest_cases w) as [Hr | (e & w1 & Hi & Hd & Hf)]; [left; exact Hr |].
  right. rewrite main_world, Hi. split; [exact Hd |].
  intros p Hp. rewrite reported_files_other by exact Hp. apply Hf, Hp.
Qed.

(** ** Runs that reach the end, in full *)

Lemma write_text_inv p data w w' :
  write_text p data w = (w', inr tt) ->
  faults w (SysWrite p) = None /\ is_dir w p = false /\
  w' = set_files (<[p := data]> (files w)) w.
Proof.
  unfold write_text.
  destruct (faults w (SysWrite p)); [discriminate |].
  destruct (is_dir w p); [discriminate |].
  intros H. repeat split. revert H. fs_cases; try discriminate;
    intros H; injection H as <-; reflexivity.
Qed.

Lemma is_dir_mkdir_child p c w :
  is_dir (set_dirs (dirs w ∪ list_to_set (with_parents p)) w) (p // c) = is_dir w (p // c).
Proof.
  unfold is_dir. cbn [dirs set_dirs]. apply bool_decide_ext. split.
  - intros Hin. apply elem_of_union in Hin as [Hin | Hin]; [exact Hin |].
    exfalso. revert Hin. apply child_not_parent.
  - apply elem_of_union_l.
Qed.

(** [save_data] returns exactly from the writable worlds, and then leaves
    the world [saved]. *)
Lemma save_data_ok train_df test_df root w :
  writable root w ->
  save_data train_df test_df root w = (saved train_df test_df root w, inr tt).
Proof.
  intros (Hm & Ht & He & Hf & Hd1 & Hd2).
  assert (Hraw : is_file w (root // "raw") = false).
  { destruct (is_file w (root // "raw")) eqn:E; [| reflexivity].
    rewrite <- Hf. symmetry. apply existsb_exists. exists (root // "raw").
    split; [apply with_parents_self, joinpath_not_nil | exact E]. }
  rewrite save_data_spec, (mkdir_ok _ _ Hm Hf).
  rewrite (write_after_mkdir (root // "raw") "train.csv" _ w);
    [| reflexivity | apply joinpath_not_nil | exact Ht | exact Hd1 | exact Hraw].
  rewrite (write_after_mkdir (root // "raw") "test.csv" _ w);
    [| reflexivity | apply joinpath_not_nil | exact He | exact Hd2 |].
  - reflexivity.
  - rewrite is_file_insert_ne; [exact Hraw | apply joinpath_not_self].
Qed.

Lemma save_data_inv train_df test_df root w w' :
  save_data train_df test_df root w = (w', inr tt) ->
  writable root w /\ w' = saved train_df test_df root w.
Proof.
  intros H.
  assert (Hw : writable root w).
  { rewrite save_data_spec in H.
    destruct (mkdir (root // "raw") w) as [w1 [e | []]] eqn:E1; [discriminate |].
    destruct (write_text (root // "raw" // "train.csv") (to_csv train_df) w1)
      as [w2 [e | []]] eqn:E2; [discriminate |].
    destruct (write_text (root // "raw" // "test.csv") (to_csv test_df) w2)
      as [w3 [e | []]] eqn:E3; [discriminate |].
    apply mkdir_inv in E1 as (Hm & Hf & ->).
    apply write_text_inv in E2 as (Ht & Hd1 & ->).
    apply write_text_inv in E3 as (He & Hd2 & _).
    rewrite is_dir_mkdir_child in Hd1.
    change (is_dir (set_dirs (dirs w ∪ list_to_set (with_parents (root // "raw"))) w)
              (root // "raw" // "test.csv") = false) in Hd2.
    rewrite is_dir_mkdir_child in Hd2.
    repeat split; assumption. }
  split; [exact Hw |]. rewrite (save_data_ok _ _ _ _ Hw) in H. congruence.
Qed.

Lemma writable_prepared w : writable ["data"] (prepared w) <-> writable ["data"] w.
Proof.
  assert (Hfile : forall p, p <> LOG_FILE -> is_file (prepared w) p = is_file w p).
  { intros p Hp. unfold is_file, prepared. rewrite !logged_files_other by exact Hp.
    unfold requested. cbn [files]. rewrite logged_files_other by exact Hp. reflexivity. }
  unfold writable.
  change (existsb (is_file (prepared w)) (with_parents (["data"] // "raw")))
    with (is_file (prepared w) ["data"] || (is_file (prepared w) ["data"; "raw"] || false))%bool.
  change (existsb (is_file w) (with_parents (["data"] // "raw")))
    with (is_file w ["data"] || (is_file w ["data"; "raw"] || false))%bool.
  rewrite !Hfile by discriminate. reflexivity.
Qed.

(** X6. The body of [main] runs to its end without an exception exactly
    when every stage before [save_data] goes through and the output paths
    can be written. *)
Theorem run_completes_iff (w : World) :
  (exists w', ingest w = (w', inr tt)) <->
  (exists ts df train test, reaches_save w ts df train test /\ writable ["data"] w).
Proof.
  split.
  - intros [w' Hi].
    destruct (ingest_config_cases w) as [[ts Hc] | (e & w1 & Hi' & _)]; [| congruence].
    destruct (ingest_configured_cases w ts Hc)
      as [(df & train & test & Hr & Hs) | (e & w1 & Hi' & _)]; [| congruence].
    rewrite Hs in Hi. apply save_data_inv in Hi as [Hw _].
    exists ts, df, train, test. split; [exact Hr | apply writable_prepared, Hw].
  - intros (ts & df & train & test & Hr & Hw).
    destruct (ingest_configured_cases w ts (proj1 Hr))
      as [(df' & train' & test' & Hr' & Hs) | (e & w1 & Hi & _)].
    + exists (saved train' test' ["data"] (prepared w)).
      rewrite Hs. apply save_data_ok, writable_prepared, Hw.
    + exfalso. destruct (configured_load w ts (proj1 Hr)) as (params & section & Hl & Hsec & Hts).
      destruct Hr as (_ & Hremote & Hall & Hsplit).
      rewrite ingest_unfold, Hl, Hsec, Hts, load_data_spec, logged_remote, Hremote in Hi.
      rewrite (preprocess_data_inr _ _ Hall), Hsplit in Hi. cbn [fst snd] in Hi.
      rewrite save_data_ok in Hi by (apply writable_prepared, Hw). discriminate.
Qed.

Lemma reaches_save_run w ts df train test :
  reaches_save w ts df train test ->
  ingest w = save_data train test ["data"] (prepared w).
Proof.
  intros (Hc & Hremote & Hall & Hsplit).
  destruct (configured_load w ts Hc) as (params & section & Hl & Hsec & Hts).
  rewrite ingest_unfold, Hl, Hsec, Hts, load_data_spec, logged_remote, Hremote.
  rewrite (preprocess_data_inr _ _ Hall), Hsplit. reflexivity.
Qed.

Lemma ingest_inr_saved w w' :
  ingest w = (w', inr tt) ->
  exists ts df train test,
    reaches_save w ts df train test /\ writable ["data"] w /\
    w' = saved train test ["data"] (prepared w).
Proof.
  intros Hi.
  destruct (ingest_config_cases w) as [[ts Hc] | (e & w1 & Hi' & _)]; [| congruence].
  destruct (ingest_configured_cases w ts Hc)
    as [(df & train & test & Hr & Hs) | (e & w1 & Hi' & _)]; [| congruence].
  rewrite Hs in Hi. apply save_data_inv in Hi as [Hw ->].
  exists ts, df, train, test. split; [exact Hr |]. split; [apply writable_prepared, Hw |].
  reflexivity.
Qed.

(** X7. What a run that reaches the end has done besides writing the two
    files: it printed nothing, made one request, made the directories [data]
    and [data/raw], and logged four DEBUG records, one per stage, in the order
    of the stages. *)
Theorem completed_run_effects (w w' : World) :
  ingest w = (w', inr tt) ->
  main w = (w', inr tt) /\
  stdout w' = stdout w /\
  requests w' = (requests w ++ [data_url])%list /\
  dirs w' = dirs w ∪ list_to_set [["data"]; ["data"; "raw"]] /\
  stderr w' =
    (stderr w ++
     [fmt (clock w) DEBUG "Parameters retrieved from params.yaml";
      fmt (S (clock w)) DEBUG ("Data loaded from " +:+ data_url);
      fmt (S (S (clock w))) DEBUG "Data preprocessing completed";
      fmt (S (S (S (clock w)))) DEBUG "Train and test data saved to data/raw"])%list.
Proof.
  intros Hi. split; [rewrite main_unfold, Hi; reflexivity |].
  apply ingest_inr_saved in Hi as (ts & df & train & test & _ & _ & ->).
  split; [reflexivity |]. split; [reflexivity |]. split; [reflexivity |].
  unfold saved, prepared, logged, requested. cbn [stderr clock set_files set_dirs].
  rewrite <- !app_assoc. reflexivity.
Qed.

Lemma saved_files_train train_df test_df root w :
  files (saved train_df test_df root w) !! (root // "raw" // "train.csv")
  = Some (to_csv train_df).
Proof.
  pose proof (raw_file_not_log root "train.csv") as Hl.
  pose proof (train_not_test root) as Hne.
  unfold saved. rewrite logged_files_other by exact Hl. cbn [files set_files].
  rewrite lookup_insert_ne by congruence. apply lookup_insert_eq.
Qed.

Lemma saved_files_test train_df test_df root w :
  files (saved train_df test_df root w) !! (root // "raw" // "test.csv")
  = Some (to_csv test_df).
Proof.
  pose proof (raw_file_not_log root "test.csv") as Hl.
  unfold saved. rewrite logged_files_other by exact Hl. cbn [files set_files].
  apply lookup_insert_eq.
Qed.

Lemma saved_files_other train_df test_df root w p :
  p <> LOG_FILE -> p <> root // "raw" // "train.csv" -> p <> root // "raw" // "test.csv" ->
  files (saved train_df test_df root w) !! p = files w !! p.
Proof.
  intros Hl Htr Hte. unfold saved. rewrite logged_files_other by exact Hl.
  cbn [files set_files]. rewrite !lookup_insert_ne by congruence. reflexivity.
Qed.

Lemma prepared_files_other w p : p <> LOG_FILE -> files (prepared w) !! p = files w !! p.
Proof.
  intros Hp. unfold prepared. rewrite !logged_files_other by exact Hp.
  unfold requested. cbn [files]. apply logged_files_other, Hp.
Qed.

(** X8. Running [main] again in the world a completed run left completes
    again and leaves the same [train.csv], the same [test.csv] and the same
    directories: the outputs of the first run are replaced by equal ones. *)
Theorem rerun_writes_the_same_files (w w' : World) :
  ingest w = (w', inr tt) ->
  exists w'',
    ingest w' = (w'', inr tt) /\
    files w'' !! train_csv = files w' !! train_csv /\
    files w'' !! test_csv = files w' !! test_csv /\
    dirs w'' = dirs w'.
Proof.
  intros Hi. apply ingest_inr_saved in Hi as (ts & df & train & test & Hr & Hw & ->).
  set (w' := saved train test ["data"] (prepared w)).
  assert (Hfiles : forall p, p <> LOG_FILE -> p <> train_csv -> p <> test_csv ->
                             files w' !! p = files w !! p).
  { intros p H1 H2 H3. unfold w'. rewrite saved_files_other by assumption.
    apply prepared_files_other, H1. }
  assert (Hr' : reaches_save w' ts df train test).
  { destruct Hr as ((content & params & section & Hf & Hfile & Hrest) & Hremote & Hall & Hsplit).
    split; [| split; [exact Hremote | split; assumption]].
    exists content, params, section. split; [exact Hf |].
    split; [| exact Hrest]. rewrite Hfiles by discriminate. exact Hfile. }
  assert (Hw' : writable ["data"] w').
  { destruct Hw as (Hm & Ht & He & Hf & Hd1 & Hd2).
    split; [exact Hm |]. split; [exact Ht |]. split; [exact He |].
    split; [| split].
    - change (existsb (is_file w') (with_parents (["data"] // "raw")))
        with (is_file w' ["data"] || (is_file w' ["data"; "raw"] || false))%bool.
      change (existsb (is_file w) (with_parents (["data"] // "raw")))
        with (is_file w ["data"] || (is_file w ["data"; "raw"] || false))%bool in Hf.
      unfold is_file in *. rewrite !Hfiles by discriminate. exact Hf.
    - change (is_dir w' (["data"] // "raw" // "train.csv"))
        with (is_dir (set_dirs (dirs w ∪ list_to_set (with_parents (["data"] // "raw"))) w)
                (["data"] // "raw" // "train.csv")).
      rewrite is_dir_mkdir_child. exact Hd1.
    - change (is_dir w' (["data"] // "raw" // "test.csv"))
        with (is_dir (set_dirs (dirs w ∪ list_to_set (with_parents (["data"] // "raw"))) w)
                (["data"] // "raw" // "test.csv")).
      rewrite is_dir_mkdir_child. exact Hd2. }
  exists (saved train test ["data"] (prepared w')).
  split; [rewrite (reaches_save_run _ _ _ _ _ Hr'); apply save_data_ok, writable_prepared, Hw' |].
  split; [| split].
  - change train_csv with (["data"] // "raw" // "train.csv").
    unfold w'. rewrite !saved_files_train. reflexivity.
  - change test_csv with (["data"] // "raw" // "test.csv").
    unfold w'. rewrite !saved_files_test. reflexivity.
  - change (dirs (saved train test ["data"] (prepared w')))
      with (dirs w' ∪ list_to_set (with_parents (["data"] // "raw"))).
    change (dirs w') with (dirs w ∪ list_to_set (with_parents (["data"] // "raw"))).
    rewrite <- (assoc_L (∪)), (idemp_L (∪)). reflexivity.
Qed.

(** ** The log file *)

#[local] Instance log_appended_preorder : PreOrder log_appended.
Proof.
  split.
  - intros w. exists "". symmetry. apply string_app_nil_r.
  - intros a b c [m1 H1] [m2 H2]. exists (m1 +:+ m2).
    rewrite H2, H1. apply string_app_assoc.
Qed.

Lemma log_appended_same w w' :
  files w' !! LOG_FILE = files w !! LOG_FILE -> log_appended w w'.
Proof. intros H. exists "". rewrite H. symmetry. apply string_app_nil_r. Qed.

Lemma print_log line : preserves log_appended (print line).
Proof. intros w. apply log_appended_same. reflexivity. Qed.

Lemma read_csv_log url : preserves log_appended (read_csv url).
Proof. intros w. apply log_appended_same. reflexivity. Qed.

Lemma mkdir_log p : preserves log_appended (mkdir p).
Proof. intros w. apply log_appended_same. apply (mkdir_files [] p w). intros []. Qed.

Lemma write_text_log p data : p <> LOG_FILE -> preserves log_appended (write_text p data).
Proof.
  intros Hp w. apply log_appended_same.
  apply (write_text_files [p] p data (or_introl eq_refl) w). intros [H | []]. congruence.
Qed.

Lemma logged_log lv msg w :
  files (logged lv msg w) !! LOG_FILE
  = Some (default "" (files w !! LOG_FILE) +:+ fmt (clock w) lv msg +:+ newline).
Proof. unfold logged. cbn [files]. apply lookup_insert_eq. Qed.

Lemma emit_log lv msg : preserves log_appended (emit lv msg).
Proof.
  intros w. exists (fmt (clock w) lv msg +:+ newline).
  unfold emit. cbn [fst]. rewrite logged_log. reflexivity.
Qed.

#[local] Hint Resolve print_log read_csv_log mkdir_log write_text_log emit_log
  raw_file_not_log : frame.

Lemma ingest_log : preserves log_appended ingest.
Proof. unfold ingest. frame. Qed.

Lemma newline_not_nil : newline <> "".
Proof. discriminate. Qed.

(** X9. [main] only ever appends to the log file: after any run the file
    holds what it held before, followed by at least one new record. *)
Theorem main_appends_to_the_log (w : World) :
  exists more,
    more <> "" /\
    files (fst (main w)) !! LOG_FILE = Some (default "" (files w !! LOG_FILE) +:+ more).
Proof.
  pose proof (ingest_log w) as [m Hm]. rewrite main_world.
  destruct (ingest w) as [w1 [e | []]] eqn:Hi; cbn [fst] in Hm.
  - eexists. split; [| unfold reported, printed; cbn [files];
                        rewrite logged_log, Hm, string_app_assoc; reflexivity].
    apply string_app_not_nil, string_app_not_nil, newline_not_nil.
  - apply ingest_inr_saved in Hi as (ts & df & train & test & _ & _ & ->).
    assert (Hp : log_appended w (prepared w)).
    { unfold prepared.
      transitivity (logged DEBUG "Parameters retrieved from params.yaml" w);
        [apply (emit_log DEBUG _ w) |].
      transitivity (requested data_url (logged DEBUG "Parameters retrieved from params.yaml" w));
        [apply log_appended_same; reflexivity |].
      etransitivity; [apply (emit_log DEBUG) |]. apply (emit_log DEBUG). }
    destruct Hp as [m' Hm'].
    assert (Hs : files (saved train test ["data"] (prepared w)) !! LOG_FILE
                 = Some (default "" (files (prepared w) !! LOG_FILE)
                         +:+ fmt (clock (prepared w)) DEBUG
                               ("Train and test data saved to " +:+ path_str (["data"] // "raw"))
                         +:+ newline)).
    { unfold saved. rewrite logged_log. cbn [files set_files set_dirs clock].
      rewrite (lookup_insert_ne _ _ _ _ (raw_file_not_log ["data"] "test.csv")).
      rewrite (lookup_insert_ne _ _ _ _ (raw_file_not_log ["data"] "train.csv")).
      reflexivity. }
    eexists. split; [| rewrite Hs, Hm', string_app_assoc; reflexivity].
    apply string_app_not_nil, string_app_not_nil, newline_not_nil.
Qed.

(** ** Failures of [save_data] *)

Lemma write_text_refused p data w why :
  faults w (SysWrite p) = Some why -> write_text p data w = (w, inl (OSError why)).
Proof. intros H. unfold write_text. rewrite H. reflexivity. Qed.


Lemma mkdir_keeps p w :
  stderr (fst (mkdir p w)) = stderr w /\ clock (fst (mkdir p w)) = clock w /\
  files (fst (mkdir p w)) = files w.
Proof. unfold mkdir. fs_cases; repeat split. Qed.

Lemma write_text_keeps p data w :
  stderr (fst (write_text p data w)) = stderr w /\ clock (fst (write_text p data w)) = clock w.
Proof. unfold write_text. fs_cases; repeat split. Qed.

Lemma write_text_inl p data w w' e : write_text p data w = (w', inl e) -> w' = w.
Proof.
  unfold write_text. fs_cases; intros H; try discriminate; injection H as <- _; reflexivity.
Qed.


(** ** Small tables and test sizes *)

Lemma train_test_split_nonempty df test_size seed train test :
  train_test_split df test_size seed = inr (train, test) ->
  (1 <= n_samples train)%nat /\ (1 <= n_samples test)%nat /\ (2 <= n_samples df)%nat.
Proof.
  intros Hs.
  pose proof (train_test_split_sizes _ _ _ _ _ Hs) as [Hsum Hv].
  apply train_test_split_inv in Hs as (a & b & Hv' & Hb & Ha & _).
  rewrite Hv in Hv'. injection Hv' as <- <-. lia.
Qed.

(** X12. Neither part of a split is ever empty: when [train_test_split]
    returns, each part has at least one row, so the table had at least two;
    on a table with fewer than two rows it raises, whatever the test size. *)
Theorem split_parts_are_never_empty (df : DataFrame) (test_size : pyobj) (seed : nat) :
  (forall train test,
     train_test_split df test_size seed = inr (train, test) ->
     (1 <= n_samples train)%nat /\ (1 <= n_samples test)%nat /\ (2 <= n_samples df)%nat) /\
  ((n_samples df < 2)%nat -> exists e, train_test_split df test_size seed = inl e).
Proof.
  split; [apply train_test_split_nonempty |]. intros Hn.
  destruct (train_test_split df test_size seed) as [e | [train test]] eqn:E;
    [exists e; reflexivity |].
  destruct (train_test_split_nonempty _ _ _ _ _ E) as (_ & _ & H2). lia.
Qed.

(** X13. A run whose table has fewer than two rows fails and writes
    nothing: no directory is made and no file but the log changes. *)
Theorem too_few_rows_stop_the_run (w : World) (df : DataFrame) :
  remote w data_url = inr df ->
  (n_samples df < 2)%nat ->
  (exists e, snd (ingest w) = inl e) /\
  dirs (fst (main w)) = dirs w /\
  (forall p, p <> LOG_FILE -> files (fst (main w)) !! p = files w !! p).
Proof.
  intros Hremote Hn.
  destruct (ingest_cases w)
    as [(ts & df' & train & test & _ & Hr & _ & Hs) | (e & w1 & Hi & Hd & Hf)].
  - exfalso. rewrite Hremote in Hr. injection Hr as <-.
    destruct (train_test_split_nonempty _ _ _ _ _ Hs) as (_ & _ & H2).
    rewrite normalized_n_samples in H2. lia.
  - rewrite main_world, Hi. split; [exists e; reflexivity |]. split; [exact Hd |].
    intros p Hp. rewrite reported_files_other by exact Hp. apply Hf, Hp.
Qed.

(** X14. An integer test size is a number of rows: for [0 < k < n] the
    split returns with exactly [k] rows in the test part and [n - k] in the
    train part, and for any other integer it raises [ValueError]. *)
Theorem integer_test_size_counts_rows (df : DataFrame) (k : Z) :
  (0 < k < Z.of_nat (n_samples df) ->
   exists train test,
     train_test_split df (PyInt k) 2 = inr (train, test) /\
     Z.of_nat (n_samples test) = k /\
     Z.of_nat (n_samples train) = Z.of_nat (n_samples df) - k) /\
  (~ 0 < k < Z.of_nat (n_samples df) ->
   exists detail, train_test_split df (PyInt k) 2 = inl (ValueError detail)).
Proof.
  split.
  - intros Hk.
    assert (Hv : validate_shuffle_split (Z.of_nat (n_samples df)) (PyInt k) None quarter
                 = inr (Z.of_nat (n_samples df) - k, k)).
    { unfold validate_shuffle_split.
      replace ((Z.of_nat (n_samples df) <=? k) || (k <=? 0))%bool with false
        by (symmetry; apply orb_false_iff; split; apply Z.leb_gt; lia).
      cbv zeta.
      replace (Z.of_nat (n_samples df) <? Z.of_nat (n_samples df) - k + k) with false
        by (symmetry; apply Z.ltb_ge; lia).
      replace (Z.of_nat (n_samples df) - k =? 0) with false
        by (symmetry; apply Z.eqb_neq; lia).
      reflexivity. }
    destruct (train_test_split_returns df (PyInt k) 2 _ _ Hv Hk) as (train & test & Hs).
    exists train, test. split; [exact Hs |].
    apply train_test_split_sizes in Hs as [_ Hv']. rewrite Hv in Hv'.
    injection Hv' as Ha Hb. split; congruence.
  - intros Hk. unfold train_test_split, validate_shuffle_split. cbv zeta.
    replace ((Z.of_nat (n_samples df) <=? k) || (k <=? 0))%bool with true.
    + eexists. reflexivity.
    + symmetry. apply orb_true_iff.
      destruct (Z.leb_spec (Z.of_nat (n_samples df)) k); [left; reflexivity |].
      right. apply Z.leb_le. lia.
Qed.

(** ** Normalization, again *)

Lemma filter_all {A} (f : A -> bool) (xs : list A) :
  (forall x, In x xs -> f x = true) -> List.filter f xs = xs.
Proof.
  induction xs as [| x xs IH]; intros H; [reflexivity |].
  simpl. rewrite (H x (or_introl eq_refl)). f_equal. apply IH.
  intros y Hy. apply H. right. exact Hy.
Qed.

Lemma normalized_has_no_placeholder df c :
  In c placeholders -> has_label (columns (normalized df)) c = false.
Proof.
  intros Hc. apply not_true_iff_false. rewrite has_label_In.
  unfold normalized. cbn [columns]. intros Hin.
  apply in_map_iff in Hin as (c0 & Hn & Hc0). apply filter_In in Hc0 as [_ Hc0].
  apply negb_true_iff in Hc0. apply new_label_not_placeholder in Hc0. rewrite Hn in Hc0.
  destruct Hc as [<- | [<- | [<- | []]]]; discriminate.
Qed.

(** X15. Normalization cannot be applied twice: the frame
    [preprocess_data] returns has none of the placeholder columns left, so a
    second call raises the [KeyError] that names all three. *)
Theorem preprocess_data_not_twice (df df' : DataFrame) (w w1 w2 : World) :
  preprocess_data df w = (w1, inr df') ->
  preprocess_data df' w2 =
    (logged ERROR ("Missing column in the dataframe: " +:+ py_str (KeyError placeholders)) w2,
     inl (KeyError placeholders)).
Proof.
  intros H.
  assert (Hall : forall c, In c placeholders -> In c (columns df)).
  { rewrite preprocess_data_spec in H.
    destruct (drop_columns placeholders df) as [e | df0] eqn:E; [discriminate |].
    exact (drop_columns_inv _ _ _ E). }
  rewrite (preprocess_data_inr df w Hall) in H. injection H as _ <-.
  rewrite preprocess_data_spec. unfold drop_columns.
  assert (Hf : List.filter (fun l => negb (has_label (columns (normalized df)) l)) placeholders
               = placeholders).
  { apply filter_all. intros c Hc.
    rewrite (normalized_has_no_placeholder df c Hc). reflexivity. }
  rewrite Hf. reflexivity.
Qed.

Lemma select_map_length {A} (f : string -> bool) cols (xs : list A) :
  length xs = length cols -> length (select (map f cols) xs) = length (List.filter f cols).
Proof.
  revert xs. induction cols as [| c cols IH]; intros [| x xs] H; try discriminate;
    [reflexivity |].
  simpl in H. injection H as H. simpl. destruct (f c); simpl; rewrite IH by exact H; reflexivity.
Qed.

Lemma take_rows_In rs indices rs' r :
  take_rows rs indices = inr rs' -> In r rs' -> In r rs.
Proof.
  revert rs'. induction indices as [| i indices IH]; intros rs' H Hr; simpl in H.
  - injection H as <-. destruct Hr.
  - destruct (rs !! i) as [r0 |] eqn:Ei; [| discriminate].
    destruct (take_rows rs indices) as [e | rs0]; [discriminate |].
    injection H as <-. destruct Hr as [<- | Hr].
    + apply list_elem_of_In, list_elem_of_lookup. exists i. exact Ei.
    + apply (IH rs0 eq_refl Hr).
Qed.

Lemma iloc_rectangular df indices df' :
  rectangular df -> iloc df indices = inr df' -> rectangular df'.
Proof.
  intros Hrect H. apply iloc_inr in H as [Hc Hr]. unfold rectangular in *.
  rewrite Hc. apply List.Forall_forall. intros r Hin.
  apply (take_rows_In _ _ _ _ Hr) in Hin.
  rewrite List.Forall_forall in Hrect. apply Hrect, Hin.
Qed.

(** X16. A table with one cell per column in every row stays one through
    the stages: the frame [preprocess_data] returns and both parts
    [train_test_split] returns are rectangular when their input is. *)
Theorem rectangular_is_kept (df : DataFrame) :
  rectangular df ->
  (forall w w1 df', preprocess_data df w = (w1, inr df') -> rectangular df') /\
  (forall test_size seed train test,
     train_test_split df test_size seed = inr (train, test) ->
     rectangular train /\ rectangular test).
Proof.
  intros Hrect. split.
  - intros w w1 df' H. rewrite preprocess_data_spec in H.
    destruct (drop_columns placeholders df) as [e | df0] eqn:E; [discriminate |].
    pose proof (drop_columns_inv _ _ _ E) as Hall.
    rewrite (drop_columns_inr _ _ Hall) in E. injection E as <-. injection H as _ <-.
    unfold rectangular, rename_columns in *. cbn [columns records].
    rewrite length_map. apply List.Forall_forall. intros r Hin.
    apply in_map_iff in Hin as (r0 & <- & Hin). cbn [snd].
    rewrite List.Forall_forall in Hrect. apply select_map_length, Hrect, Hin.
  - intros test_size seed train test H. unfold train_test_split in H. cbv zeta in H.
    destruct (validate_shuffle_split _ test_size None quarter) as [e | [a b]]; [discriminate |].
    destruct (validate_shuffle_split _ (PyInt b) (Some a) tenth) as [e | [a' b']];
      [discriminate |].
    destruct (iloc df (take _ (drop _ _))) as [e | tr] eqn:Etr; [discriminate |].
    destruct (iloc df (take _ _)) as [e | te] eqn:Ete in H; [discriminate |].
    injection H as <- <-.
    split; [apply (iloc_rectangular _ _ _ Hrect Etr) | apply (iloc_rectangular _ _ _ Hrect Ete)].
Qed.

(** ** What the loaders log and pass on *)

(** X17. [load_params] records two kinds of failure only: a missing file
    and a YAML error get one ERROR record each; any other exception, such as
    a refused [open] or a directory in the place of the file, passes to the
    caller without a record and leaves the world as it was. *)
Theorem load_params_logs_two_kinds (params_path : Path) (w w1 : World) (e : exn) :
  load_params params_path w = (w1, inl e) ->
  match e with
  | FileNotFoundError _ =>
      stderr w1 = (stderr w ++ [fmt (clock w) ERROR ("File not found: " +:+ path_str params_path)])%list
  | YAMLError _ =>
      stderr w1 = (stderr w ++ [fmt (clock w) ERROR ("YAML error: " +:+ py_str e)])%list
  | _ => w1 = w
  end.
Proof.
  rewrite load_params_spec.
  destruct (faults w (SysOpen params_path)) as [why |].
  { intros H. injection H as <- <-. reflexivity. }
  destruct (files w !! params_path) as [content |].
  - destruct (yaml_safe_load content) as [e' | params]; [| discriminate].
    intros H. injection H as <- <-. destruct e'; reflexivity.
  - destruct (is_dir w params_path); intros H; injection H as <- <-; reflexivity.
Qed.

(** X18. [load_data] passes on what [pd.read_csv] gives: it returns the
    very table or raises the very exception, after one request and one log
    record, DEBUG for a table and ERROR for an exception, whose text tells a
    parser error from any other. *)
Theorem load_data_passes_on (url : string) (w : World) :
  snd (load_data url w) = remote w url /\
  requests (fst (load_data url w)) = (requests w ++ [url])%list /\
  stderr (fst (load_data url w)) =
    (stderr w ++
     [match remote w url with
      | inr _ => fmt (clock w) DEBUG ("Data loaded from " +:+ url)
      | inl (ParserError detail) =>
          fmt (clock w) ERROR ("Failed to parse the CSV file: " +:+ py_str (ParserError detail))
      | inl e =>
          fmt (clock w) ERROR ("Unexpected error occurred while loading the data: " +:+ py_str e)
      end])%list.
Proof.
  rewrite load_data_spec.
  destruct (remote w url) as [e | df]; [| repeat split].
  split; [reflexivity |]. split; [reflexivity |]. destruct e; reflexivity.
Qed.

(** ** What [main] leaves alone *)

Lemma save_data_dirs train_df test_df root w :
  dirs (fst (save_data train_df test_df root w)) = dirs w \/
  dirs (fst (save_data train_df test_df root w))
    = dirs w ∪ list_to_set (with_parents (root // "raw")).
Proof.
  rewrite save_data_spec.
  pose proof (write_text_dirs (root // "raw" // "train.csv") (to_csv train_df)) as H1.
  pose proof (write_text_dirs (root // "raw" // "test.csv") (to_csv test_df)) as H2.
  unfold preserves, same_dirs in H1, H2.
  destruct (mkdir (root // "raw") w) as [w1 [e | []]] eqn:E1.
  - left. unfold mkdir in E1.
    destruct (faults w (SysMkdir (root // "raw"))); [injection E1 as <- _; reflexivity |].
    destruct (existsb (is_file w) (with_parents (root // "raw")));
      [injection E1 as <- _; reflexivity | discriminate].
  - apply mkdir_inr in E1. right.
    specialize (H1 w1).
    destruct (write_text (root // "raw" // "train.csv") (to_csv train_df) w1) as [w2 [e | []]];
      cbn [fst] in H1.
    + cbn [fst]. change (dirs (logged ERROR (save_data_message e) w2)) with (dirs w2).
      rewrite H1, E1. reflexivity.
    + specialize (H2 w2).
      destruct (write_text (root // "raw" // "test.csv") (to_csv test_df) w2) as [w3 [e | []]];
        cbn [fst] in H2 |- *.
      * change (dirs (logged ERROR (save_data_message e) w3)) with (dirs w3).
        rewrite H2, H1, E1. reflexivity.
      * change (dirs (logged DEBUG ("Train and test data saved to " +:+ path_str (root // "raw"))
                        w3)) with (dirs w3).
        rewrite H2, H1, E1. reflexivity.
Qed.


End Script.

(** ** The theorems at the concrete instance *)

Lemma sample_permutation_shuffles seed n :
  Permutation (sample_permutation seed n) (seq 0 n).
Proof. unfold sample_permutation. symmetry. apply Permutation_rev. Qed.

Abbreviation sample_main := (main sample_permutation sample_yaml sample_str sample_asctime sample_writerow).
Abbreviation sample_ingest := (ingest sample_permutation sample_yaml sample_str sample_asctime sample_writerow).

(** Without [params.yaml] the run fails in [load_params]; [main] prints the
    error and returns. *)
Lemma main_catches_every_exception_witness :
  snd (sample_main bare_world) = inr tt /\
  stdout (fst (sample_main bare_world)) = ["Error: No such file or directory: params.yaml"].
Proof.
  assert (H : sample_ingest bare_world =
              (fst (sample_ingest bare_world), inl (FileNotFoundError "params.yaml")))
    by (vm_compute; reflexivity).
  destruct (main_catches_every_exception sample_permutation sample_yaml sample_str
              sample_asctime sample_writerow _ _ _ H) as (Hret & _ & _ & Hout & _).
  split; [exact Hret | exact Hout].
Defined.

(** A malformed configuration: no request, no output file. *)
Lemma malformed_yaml_stops_before_fetch_witness :
  requests (fst (sample_main bad_yaml_world)) = [] /\
  files (fst (sample_main bad_yaml_world)) !! train_csv = None /\
  files (fst (sample_main bad_yaml_world)) !! test_csv = None.
Proof.
  destruct (malformed_yaml_stops_before_fetch sample_permutation sample_yaml sample_str
              sample_asctime sample_writerow bad_yaml_world
              "data_ingestion: test_size: 0.2" "mapping values are not allowed here")
    as (_ & _ & Hreq & _ & _ & Htr & Hte & _).
  - reflexivity.
  - vm_compute. reflexivity.
  - vm_compute. reflexivity.
  - split; [exact Hreq |]. split; [exact Htr | exact Hte].
Defined.

(** An empty configuration parses to [None], and indexing [None] is a
    [TypeError]. *)
Lemma missing_test_size_is_reported_witness :
  exists e,
    sample_main empty_yaml_world =
      (reported sample_str sample_asctime e
         (logged sample_asctime DEBUG "Parameters retrieved from params.yaml" empty_yaml_world),
       inr tt) /\
    e = TypeError "NoneType".
Proof.
  destruct (missing_test_size_is_reported sample_permutation sample_yaml sample_str
              sample_asctime sample_writerow empty_yaml_world "" PyNone)
    as (e & _ & Hnone & _ & Hmain & _).
  - reflexivity.
  - vm_compute. reflexivity.
  - vm_compute. reflexivity.
  - reflexivity.
  - exists e. split; [exact Hmain | apply Hnone; reflexivity].
Defined.

(** The sample table is left with the columns [target] and [text]. *)
Lemma preprocess_data_normalizes_witness :
  exists df',
    snd (preprocess_data sample_str sample_asctime sample_frame bare_world) = inr df' /\
    columns df' = ["target"; "text"].
Proof.
  destruct (preprocess_data_normalizes sample_str sample_asctime sample_frame bare_world)
    as (df' & Hrun & Hcols & _).
  - simpl. tauto.
  - simpl. tauto.
  - simpl. tauto.
  - simpl. tauto.
  - simpl. tauto.
  - exists df'. split; [rewrite Hrun; reflexivity | exact Hcols].
Defined.

(** A table without [v1] is normalized all the same. *)
Lemma preprocess_data_needs_only_placeholders_witness :
  ~ In "v1" (columns frame_without_v1) /\
  exists df', snd (preprocess_data sample_str sample_asctime frame_without_v1 bare_world) = inr df'.
Proof.
  split.
  - simpl. intros [H | [H | [H | [H | []]]]]; discriminate.
  - apply (proj1 (preprocess_data_needs_only_placeholders sample_str sample_asctime
                    frame_without_v1 bare_world)).
    simpl. tauto.
Defined.

(** A table without [Unnamed: 3] stops the run before anything is written. *)
Lemma missing_placeholder_fails_witness :
  (exists e, snd (sample_ingest world_without_unnamed_3) = inl e) /\
  files (fst (sample_main world_without_unnamed_3)) !! train_csv = None /\
  files (fst (sample_main world_without_unnamed_3)) !! test_csv = None.
Proof.
  destruct (missing_placeholder_fails sample_permutation sample_yaml sample_str
              sample_asctime sample_writerow frame_without_unnamed_3 bare_world
              world_without_unnamed_3) as (_ & Hrun).
  - exists "Unnamed: 3". split; [simpl; tauto |].
    simpl. intros [H | [H | [H | [H | []]]]]; discriminate.
  - destruct (Hrun eq_refl) as (Hfail & _ & _ & Htr & Hte).
    split; [exact Hfail |]. split; [exact Htr | exact Hte].
Defined.

(** A run in a fresh directory and a run over stale outputs write the same
    two files. *)
Lemma runs_are_reproducible_witness :
  exists train_text test_text,
    files (fst (sample_main fresh_world)) !! train_csv = Some train_text /\
    files (fst (sample_main used_world)) !! train_csv = Some train_text /\
    files (fst (sample_main fresh_world)) !! test_csv = Some test_text /\
    files (fst (sample_main used_world)) !! test_csv = Some test_text.
Proof.
  apply (runs_are_reproducible sample_permutation sample_yaml sample_str sample_asctime
           sample_writerow fresh_world used_world).
  - vm_compute. reflexivity.
  - reflexivity.
  - vm_compute. reflexivity.
  - vm_compute. reflexivity.
Defined.

(** The split of the sample table is a partition of its ten rows. *)
Lemma split_is_a_partition_witness :
  exists train test,
    train_test_split sample_permutation sample_frame (PyFloat one_fifth) 2 = inr (train, test) /\
    Permutation (records train ++ records test)%list (records sample_frame) /\
    forall l, In l (map fst (records train)) -> ~ In l (map fst (records test)).
Proof.
  destruct (train_test_split sample_permutation sample_frame (PyFloat one_fifth) 2)
    as [e | [train test]] eqn:H; [vm_compute in H; discriminate |].
  destruct (split_is_a_partition sample_permutation sample_permutation_shuffles
              sample_frame (PyFloat one_fifth) train test H) as (_ & _ & _ & Hrows & Hlabels).
  exists train, test. split; [reflexivity |]. split; [exact Hrows |].
  apply Hlabels. apply (bool_decide_unpack _). vm_compute. exact I.
Defined.

(** Ten rows and [test_size: 0.2]: eight rows to train, two to test. *)
Lemma split_sizes_follow_test_size_witness :
  exists w' train test,
    sample_main fresh_world = (w', inr tt) /\
    n_samples train = 8%nat /\ n_samples test = 2%nat /\
    (exists header rows,
       files w' !! train_csv = Some (csv_of sample_writerow header rows) /\
       length rows = 8%nat) /\
    (exists header rows,
       files w' !! test_csv = Some (csv_of sample_writerow header rows) /\
       length rows = 2%nat).
Proof.
  destruct (split_sizes_follow_test_size sample_permutation sample_yaml sample_str
              sample_asctime sample_writerow sample_permutation_shuffles) as (_ & _ & Hrun).
  destruct (Hrun fresh_world sample_config
              (PyDict [(PyStr "data_ingestion", PyDict [(PyStr "test_size", PyFloat one_fifth)])])
              (PyDict [(PyStr "test_size", PyFloat one_fifth)])
              sample_frame)
    as (w' & train & test & Hmain & _ & Hntr & Hnte & Htr & Hte & _).
  - reflexivity.
  - vm_compute. reflexivity.
  - vm_compute. reflexivity.
  - reflexivity.
  - reflexivity.
  - reflexivity.
  - simpl. intros c [<- | [<- | [<- | []]]]; tauto.
  - reflexivity.
  - unfold writable. split; [reflexivity |]. split; [reflexivity |].
    split; [reflexivity |]. split; [vm_compute; reflexivity |].
    split; apply (bool_decide_unpack _); vm_compute; exact I.
  - exists w', train, test. repeat split; assumption.
Defined.

(** Stale outputs are replaced and [params.yaml] is left alone. *)
Lemma save_data_replaces_outputs_witness :
  exists w',
    save_data sample_str sample_asctime sample_writerow sample_frame frame_without_v1
      ["data"] used_world = (w', inr tt) /\
    files w' !! train_csv = Some (to_csv sample_writerow sample_frame) /\
    files w' !! test_csv = Some (to_csv sample_writerow frame_without_v1) /\
    files w' !! params_yaml = Some sample_config.
Proof.
  destruct (save_data_replaces_outputs sample_str sample_asctime sample_writerow
              sample_frame frame_without_v1 ["data"] used_world)
    as (Hnew & Hret & Hframe & _).
  destruct Hret as [w' Hsave].
  { unfold writable. split; [reflexivity |]. split; [reflexivity |].
    split; [reflexivity |]. split; [vm_compute; reflexivity |].
    split; apply (bool_decide_unpack _); vm_compute; exact I. }
  exists w'. destruct (Hnew w' Hsave) as [Htr Hte].
  split; [exact Hsave |]. split; [exact Htr |]. split; [exact Hte |].
  pose proof (Hframe params_yaml) as Hp. rewrite Hsave in Hp. cbn [fst] in Hp.
  rewrite Hp; [vm_compute; reflexivity | discriminate | discriminate | discriminate].
Defined.

(** ** The further properties on the concrete instance *)

(** A second import in an empty directory leaves the first one's state. *)
Lemma module_level_twice_witness :
  exists p1,
    module_level sample_asctime (fresh_process bare_world) = (p1, inr tt) /\
    module_level sample_asctime p1 = (p1, inr tt) /\
    handlers p1 <> [].
Proof.
  destruct (module_level_ok sample_asctime (fresh_process bare_world)) as [p1 H].
  - reflexivity.
  - reflexivity.
  - reflexivity.
  - vm_compute. reflexivity.
  - destruct (module_level_twice sample_asctime (fresh_process bare_world) p1 H)
      as (Hagain & Hsome & _).
    exists p1. split; [exact H |]. split; [exact Hagain | exact Hsome].
Defined.

(** After the import, an ERROR record is one line on the console. *)
Lemma fresh_logger_writes_console_and_file_witness :
  exists p1,
    module_level sample_asctime (fresh_process bare_world) = (p1, inr tt) /\
    stderr (world (logger_log p1 ERROR "boom"))
    = (stderr (world p1) ++ [fmt sample_asctime (clock (world p1)) ERROR "boom"])%list.
Proof.
  destruct (module_level_ok sample_asctime (fresh_process bare_world)) as [p1 H].
  - reflexivity.
  - reflexivity.
  - reflexivity.
  - vm_compute. reflexivity.
  - destruct (fresh_logger_writes_console_and_file sample_asctime (fresh_process bare_world)
                p1 ERROR "boom" eq_refl H) as (_ & _ & Hconsole & _).
    exists p1. split; [exact H | exact Hconsole].
Defined.

(** The run in a fresh directory makes one request and prints nothing. *)
Lemma completed_run_effects_witness :
  exists w',
    sample_main fresh_world = (w', inr tt) /\
    requests w' = [data_url] /\
    stdout w' = [].
Proof.
  destruct (sample_ingest fresh_world) as [w' [e | []]] eqn:H; [vm_compute in H; discriminate |].
  destruct (completed_run_effects sample_permutation sample_yaml sample_str sample_asctime
              sample_writerow fresh_world w' H) as (Hmain & Hout & Hreq & _).
  exists w'. split; [exact Hmain |]. split; [exact Hreq | exact Hout].
Defined.

(** A second run in the directory the first one left. *)
Lemma rerun_writes_the_same_files_witness :
  exists w' w'',
    sample_ingest fresh_world = (w', inr tt) /\
    sample_ingest w' = (w'', inr tt) /\
    files w'' !! train_csv = files w' !! train_csv.
Proof.
  destruct (sample_ingest fresh_world) as [w' [e | []]] eqn:H; [vm_compute in H; discriminate |].
  destruct (rerun_writes_the_same_files sample_permutation sample_yaml sample_str
              sample_asctime sample_writerow fresh_world w' H) as (w'' & Hrun & Htrain & _).
  exists w', w''. split; [reflexivity |]. split; [exact Hrun | exact Htrain].
Defined.



(** One row cannot be split. *)
Lemma split_parts_are_never_empty_witness :
  exists e, train_test_split sample_permutation one_row_frame (PyFloat one_fifth) 2 = inl e.
Proof.
  apply (proj2 (split_parts_are_never_empty sample_permutation sample_permutation_shuffles
                  one_row_frame (PyFloat one_fifth) 2)).
  vm_compute. lia.
Defined.

(** A table of one row stops the run before anything is written. *)
Lemma too_few_rows_stop_the_run_witness :
  (exists e, snd (sample_ingest one_row_world) = inl e) /\
  files (fst (sample_main one_row_world)) !! train_csv = files one_row_world !! train_csv.
Proof.
  destruct (too_few_rows_stop_the_run sample_permutation sample_yaml sample_str sample_asctime
              sample_writerow sample_permutation_shuffles one_row_world one_row_frame)
    as (Hfail & _ & Hfiles).
  - reflexivity.
  - vm_compute. lia.
  - split; [exact Hfail |]. apply Hfiles. discriminate.
Defined.

(** [test_size: 3] on ten rows: three rows to test. *)
Lemma integer_test_size_counts_rows_witness :
  exists train test,
    train_test_split sample_permutation sample_frame (PyInt 3) 2 = inr (train, test) /\
    n_samples test = 3%nat.
Proof.
  destruct (proj1 (integer_test_size_counts_rows sample_permutation
                     sample_permutation_shuffles sample_frame 3))
    as (train & test & Hsplit & Htest & _).
  - vm_compute. split; reflexivity.
  - exists train, test. split; [exact Hsplit | lia].
Defined.

(** The normalized sample table is refused. *)
Lemma preprocess_data_not_twice_witness :
  exists df',
    snd (preprocess_data sample_str sample_asctime sample_frame bare_world) = inr df' /\
    snd (preprocess_data sample_str sample_asctime df' bare_world) = inl (KeyError placeholders).
Proof.
  destruct (preprocess_data sample_str sample_asctime sample_frame bare_world)
    as [w1 [e | df']] eqn:H; [vm_compute in H; discriminate |].
  exists df'. split; [reflexivity |].
  rewrite (preprocess_data_not_twice sample_str sample_asctime sample_frame df'
             bare_world w1 bare_world H).
  reflexivity.
Defined.

(** The sample table is rectangular, and so is its normalized form. *)
Lemma rectangular_is_kept_witness :
  exists df',
    snd (preprocess_data sample_str sample_asctime sample_frame bare_world) = inr df' /\
    rectangular df'.
Proof.
  destruct (preprocess_data sample_str sample_asctime sample_frame bare_world)
    as [w1 [e | df']] eqn:H; [vm_compute in H; discriminate |].
  exists df'. split; [reflexivity |].
  refine (proj1 (rectangular_is_kept sample_permutation sample_str sample_asctime
                   sample_frame _) bare_world w1 df' H).
  unfold rectangular. apply (bool_decide_unpack _). vm_compute. exact I.
Defined.

(** A refused [open] leaves no trace. *)
Lemma load_params_logs_two_kinds_witness :
  exists w1,
    load_params sample_yaml sample_str sample_asctime params_yaml locked_world
      = (w1, inl (OSError "Permission denied")) /\
    w1 = locked_world.
Proof.
  destruct (load_params sample_yaml sample_str sample_asctime params_yaml locked_world)
    as [w1 [e | params]] eqn:H; [| vm_compute in H; discriminate].
  assert (He : e = OSError "Permission denied").
  { vm_compute in H. injection H as _ He. symmetry. exact He. }
  subst e. exists w1. split; [reflexivity |].
  exact (load_params_logs_two_kinds sample_yaml sample_str sample_asctime params_yaml
           locked_world w1 (OSError "Permission denied") H).
Defined.

(** ** Where the code departs from the specification *)

(** C1 as stated fails: a table without [v1] passes [preprocess_data],
    and the run that fetched it goes on to write both output files. *)
Lemma missing_v1_goes_unnoticed :
  ~ In "v1" (columns frame_without_v1) /\
  (exists df',
     snd (preprocess_data sample_str sample_asctime frame_without_v1 bare_world) = inr df') /\
  files world_without_v1 !! train_csv = None /\
  snd (sample_ingest world_without_v1) = inr tt /\
  files (fst (sample_main world_without_v1)) !! train_csv <> None /\
  files (fst (sample_main world_without_v1)) !! test_csv <> None.
Proof.
  split; [simpl; intros [H | [H | [H | [H | []]]]]; discriminate |].
  split; [eexists; vm_compute; reflexivity |].
  split; [vm_compute; reflexivity |].
  split; [vm_compute; reflexivity |].
  split; vm_compute; discriminate.
Qed.

(** C10 as stated fails: [save_data] changes a file that is neither
    [train.csv] nor [test.csv], the log file. *)
Lemma save_data_appends_to_the_log :
  LOG_FILE <> train_csv /\ LOG_FILE <> test_csv /\
  files (fst (save_data sample_str sample_asctime sample_writerow sample_frame
                frame_without_v1 ["data"] used_world)) !! LOG_FILE
  <> files used_world !! LOG_FILE.
Proof.
  split; [discriminate |]. split; [discriminate |].
  vm_compute. discriminate.
Qed.
